(** * Uplift report: a shallow embedding of [lib/helpers.py]

    The statistical core of the report (class [Helpers]) is embedded as
    executable Rocq functions.  Conventions:

    - a pandas DataFrame is the list of its rows, in row order; a column that
      can hold NaN after a left join is an [option];
    - integer columns ([ts], [user_id], [campaign_id], counts, micro-currency
      amounts) are [Z];
    - a Python/numpy float is read as an exact rational ([Q]); where numpy can
      produce a non-finite value (division by zero, mean of an empty array)
      the value is an [fval], which adds [PosInf], [NegInf] and [NaN] to the
      rationals.  Rounding and the sign of zero are outside the model, with
      two exceptions where rounding decides what the code does: the integer
      columns that [shift(1)] turns into 64-bit floats ([float64]), and the
      two quantile indices of the bootstrap, whose binary64 values are
      [float_lower_index] and [float_upper_index];
    - exceptions, the numpy random state and the lines written by [log] are
      threaded through a small state-and-error monad [M];
    - [scipy.stats.binom.ppf] and the raw draws of the numpy generator are
      external: they are Section variables. *)

From Stdlib Require Import String DecimalString ZArith QArith Qround Bool Lia Lqa List Permutation Sorted.
From Stdlib Require Import SpecFloat.
Import ListNotations.
Open Scope Z_scope.

Set Implicit Arguments.

(** ** Exceptions, state and the monad *)

Inductive exn : Type :=
| KeyError
| AttributeError
| IndexError
| ValueError
| UnboundLocalError
| NameError.

(** [rng_pos] counts the raw draws consumed from the numpy generator so far,
    [stdout] collects the messages printed by [log] (without the time stamp
    that [log] puts in front). *)
Record state : Type := mkState { rng_pos : N; stdout : list string }.

Inductive outcome (A : Type) : Type :=
| Ok (a : A) (s : state)
| Raise (e : exn).
Arguments Raise {A} e.

Definition M (A : Type) : Type := state -> outcome A.

Definition ret {A} (a : A) : M A := fun s => Ok a s.
Definition raise {A} (e : exn) : M A := fun _ => Raise e.
Definition bind {A B} (m : M A) (k : A -> M B) : M B :=
  fun s => match m s with
           | Ok a s' => k a s'
           | Raise e => Raise e
           end.

Declare Scope py_scope.
Delimit Scope py_scope with py.
Notation "x <- m ;; k" := (bind m (fun x => k))
  (at level 100, m at next level, right associativity) : py_scope.
Notation "' p <- m ;; k" := (bind m (fun p => k))
  (at level 100, p pattern, m at next level, right associativity) : py_scope.
Notation "m ;;; k" := (bind m (fun _ => k))
  (at level 100, right associativity) : py_scope.

(** [log]: print the arguments. *)
Definition log (msg : string) : M unit :=
  fun s => Ok tt (mkState (rng_pos s) (stdout s ++ [msg])).

(** Reading a local variable that was never assigned. *)
Definition load_local {A} (v : option A) : M A :=
  match v with
  | Some a => ret a
  | None => raise UnboundLocalError
  end.

(** Reading a name that is no local variable: it is looked up among the
    globals of the module, and a name that is not bound there is a
    [NameError]. *)
Definition load_global {A} (v : option A) : M A :=
  match v with
  | Some a => ret a
  | None => raise NameError
  end.

(** ** Stable sorting

    [list.sort()] and the multi-column [DataFrame.sort_values] are stable:
    rows that compare equal keep their input order.  [sort_by ltb] is the
    insertion sort that places an element in front of the first element that
    is not strictly smaller than it. *)

Section Sorting.
Variable A : Type.
Variable ltb : A -> A -> bool.

Fixpoint insert_by (x : A) (l : list A) : list A :=
  match l with
  | [] => [x]
  | y :: t => if ltb y x then y :: insert_by x t else x :: y :: t
  end.

Fixpoint sort_by (l : list A) : list A :=
  match l with
  | [] => []
  | x :: t => insert_by x (sort_by t)
  end.

(** An element is never moved in front of one that is not strictly
    greater: the result is ordered by "not [ltb] backwards". *)
Definition ordered (x y : A) : Prop := ltb y x = false.
End Sorting.

(** ** Frames: boolean indexing and [shift] *)

(** [df[mask]]: the rows whose mask entry is [True]. *)
Definition boolean_index {A} (df : list A) (mask : list bool) : list A :=
  map fst (filter snd (combine df mask)).

(** [column.shift(1)]: every row sees the value of the row before it, the
    first row sees NaN. *)
Fixpoint shift_from {A} (fill : option A) (column : list A) : list (option A) :=
  match column with
  | [] => []
  | x :: t => fill :: shift_from (Some x) t
  end.

Definition shift {A} (column : list A) : list (option A) := shift_from None column.

(** ** Tables

    [lib/const.py] is not part of the sources at hand: [TEST] and [CONTROL]
    are taken as the two values of the [ab_test_group] column. *)

Inductive group : Type := TEST | CONTROL.

Definition group_eqb (g h : group) : bool :=
  match g, h with
  | TEST, TEST | CONTROL, CONTROL => true
  | _, _ => false
  end.

(** A row of the marks-and-spend table. *)
Record event : Type := mkEvent {
  ts : Z;
  user_id : Z;
  ab_test_group : group;
  campaign_id : Z;
  cost_eur : Z;
  event_type : string
}.

(** The same row once the [event_type] column is dropped. *)
Record mark : Type := mkMark {
  mark_ts : Z;
  mark_user_id : Z;
  mark_ab_test_group : group;
  mark_campaign_id : Z;
  mark_cost_eur : Z
}.

(** A marks frame either still carries its [event_type] column or not. *)
Inductive frame : Type :=
| with_event_type (rows : list event)
| without_event_type (rows : list mark).

(** A row of the attributions table, already cut down to the revenue
    event. *)
Record attribution : Type := mkAttribution {
  attr_ts : Z;
  attr_user_id : Z;
  attr_revenue_eur : Z
}.

(** ** Integers in 64-bit floats

    [shift(1)] fills the first row with NaN, which turns an integer column
    into a float64 column: the shifted copy holds every integer rounded to
    53 significant bits, ties to even.  A comparison of an integer column
    with a float64 column converts the integers in the same way.  An integer
    of magnitude up to 2^53 is its own rounding. *)
Definition float64 (z : Z) : Z :=
  let a := Z.abs z in
  if a <? 2 ^ 53 then z
  else
    let e := Z.log2 a - 52 in
    let q := a / 2 ^ e in
    let r := a mod 2 ^ e in
    let half := 2 ^ (e - 1) in
    let q := if r <? half then q
             else if half <? r then q + 1
             else if Z.even q then q else q + 1 in
    Z.sgn z * (q * 2 ^ e).

(** ** [Helpers._drop_duplicates_in_attributions]

    [attr_ts] and [max_timedelta] are counted in the unit in which
    [pd.to_datetime] reads the column. *)

(** Row order of [sort_values(['user_id', 'revenue_eur'])]. *)
Definition user_revenue_ltb (a b : attribution) : bool :=
  (attr_user_id a <? attr_user_id b)
  || ((attr_user_id a =? attr_user_id b) && (attr_revenue_eur a <? attr_revenue_eur b)).

(** The row filter: a comparison against the NaN of the first row's shifted
    columns is [True] for [!=] and [False] for [>].  [last_user_id],
    [last_revenue] and [last_ts] are float64 columns: the two [!=] compare
    the values as 64-bit floats, and [pd.to_datetime] reads [last_ts] from
    its float. *)
Definition differs_from_last (max_timedelta : Z) (row_last : attribution * option attribution) : bool :=
  let (row, last) := row_last in
  match last with
  | None => true
  | Some last =>
      negb (float64 (attr_user_id row) =? float64 (attr_user_id last))
      || negb (float64 (attr_revenue_eur row) =? float64 (attr_revenue_eur last))
      || (max_timedelta <? attr_ts row - float64 (attr_ts last))
  end.

Definition _drop_duplicates_in_attributions (df : list attribution) (max_timedelta : Z)
  : list attribution :=
  let sorted_values := sort_by user_revenue_ltb df in
  let last := shift sorted_values in
  let filtered :=
    boolean_index sorted_values
      (map (differs_from_last max_timedelta) (combine sorted_values last)) in
  filtered.

(** The call in [Helpers.load_attribution_data]:
    [max_timedelta=pd.Timedelta('1 minute')].  The loader stores [ts] as whole
    seconds in a 32-bit integer column ([_CSVHelpers._improve_types]), and
    [pd.to_datetime] reads an integer column as nanoseconds since the epoch:
    in the unit of the column one minute is 60 * 10^9. *)
Definition Timedelta_1_minute : Z := 60 * 10 ^ 9.

Definition deduplicate_loaded (use_deduplication : bool) (df : list attribution)
  : list attribution :=
  if use_deduplication
  then _drop_duplicates_in_attributions df Timedelta_1_minute
  else df.





(** A static helper either returns a value or raises. *)
Inductive result (A : Type) : Type :=
| Value (a : A)
| Error (e : exn).
Arguments Error {A} e.

Definition lift {A} (r : result A) : M A :=
  match r with
  | Value a => ret a
  | Error e => raise e
  end.

(** ** [Helpers._marked] *)

Definition empty (df : frame) : bool :=
  match df with
  | with_event_type [] | without_event_type [] => true
  | _ => false
  end.

(** [drop(columns=['event_type'])] *)
Definition drop_event_type (e : event) : mark :=
  mkMark (ts e) (user_id e) (ab_test_group e) (campaign_id e) (cost_eur e).

(** [sort_values('ts')].  The sort of pandas on one column is not stable:
    it may return rows of one time stamp in any order.  The model returns
    them in input order, which is one of these orders. *)
Definition mark_ts_ltb (a b : mark) : bool := mark_ts a <? mark_ts b.
Definition sort_values_ts (df : list mark) : list mark := sort_by mark_ts_ltb df.

(** [drop_duplicates(['user_id'])] keeps the first row of every user. *)
Fixpoint drop_duplicates_from (seen : list Z) (df : list mark) : list mark :=
  match df with
  | [] => []
  | row :: rest =>
      if existsb (Z.eqb (mark_user_id row)) seen
      then drop_duplicates_from seen rest
      else row :: drop_duplicates_from (mark_user_id row :: seen) rest
  end.

Definition drop_duplicates_user_id (df : list mark) : list mark :=
  drop_duplicates_from [] df.

(** The two steps that follow the filter on [event_type]. *)
Definition first_mark_per_user (mark_df : list mark) : list mark :=
  let sorted_mark_df := sort_values_ts mark_df in
  let deduplicated_mark_df := drop_duplicates_user_id sorted_mark_df in
  deduplicated_mark_df.

Definition _marked (df : frame) : result frame :=
  if empty df then Value df
  else
    match df with
    | with_event_type rows =>
        let mark_df := filter (fun e => String.eqb (event_type e) "mark") rows in
        let mark_df := map drop_event_type mark_df in
        Value (without_event_type (first_mark_per_user mark_df))
    | without_event_type _ =>
        (* [df.event_type] on a frame that has no such column *)
        Error AttributeError
    end.

(** ** [Helpers._calculate_ad_spend] *)

Definition sum (column : list Z) : Z := fold_right Z.add 0 column.

Definition _calculate_ad_spend (df : list event) : Q :=
  let ad_spend_micros :=
    sum (map cost_eur
           (filter (fun e => String.eqb (event_type e) "buying_conversion"
                             && group_eqb (ab_test_group e) TEST) df)) in
  inject_Z ad_spend_micros / inject_Z (10 ^ 6).

(** ** [Helpers._merge_into_users_df] *)

(** A row of [pd.merge(marks_df, attributions_df, on='user_id', how='left')]
    with the columns the function goes on to use; [ts_y] and [revenue_eur]
    are NaN ([None]) for a mark without attribution. *)
Record merged : Type := mkMerged {
  merged_user_id : Z;
  merged_ab_test_group : group;
  ts_x : Z;
  ts_y : option Z;
  merged_revenue_eur : option Z;
  merged_conversion_count : Z
}.

(** A row of the users frame, indexed by [user_id]. *)
Record user : Type := mkUser {
  users_user_id : Z;
  users_ab_test_group : group;
  conversion_count : Z;
  revenue_eur : Z
}.

Definition frame_rows (df : frame) : list mark :=
  match df with
  | with_event_type rows => map drop_event_type rows
  | without_event_type rows => rows
  end.

(** The left join: every mark row once per matching attribution, in the
    order of the attributions, or once with NaN when there is none.  The
    [conversion_count] column does not exist yet and is filled with 0. *)
Definition merge_left (marks_df : list mark) (attributions_df : list attribution) : list merged :=
  flat_map
    (fun m =>
       match filter (fun a => attr_user_id a =? mark_user_id m) attributions_df with
       | [] => [mkMerged (mark_user_id m) (mark_ab_test_group m) (mark_ts m) None None 0]
       | matches =>
           map (fun a => mkMerged (mark_user_id m) (mark_ab_test_group m) (mark_ts m)
                           (Some (attr_ts a)) (Some (attr_revenue_eur a)) 0) matches
       end)
    marks_df.

Definition isnull (x : option Z) : bool :=
  match x with None => true | Some _ => false end.

(** [ts_x < ts_y], [False] against NaN. *)
Definition lt_nan (a : Z) (b : option Z) : bool :=
  match b with Some b => a <? b | None => false end.

(** [bool * int] and [bool * float]; the latter keeps NaN. *)
Definition bool_times (b : bool) (x : Z) : Z := if b then x else 0.
Definition bool_times_nan (b : bool) (x : option Z) : option Z :=
  option_map (bool_times b) x.

(** [sum] of a float column inside [groupby(...).agg]: NaN is skipped. *)
Definition nansum (column : list (option Z)) : Z :=
  sum (map (fun x => match x with Some v => v | None => 0 end) column).

(** The distinct values of a key column in ascending order, the order in
    which [groupby] lists its groups. *)
Definition sorted_keys (keys : list Z) : list Z := sort_by Z.ltb (nodup Z.eq_dec keys).

Definition groupby_user_id_agg (merged_df : list merged) : list user :=
  flat_map
    (fun k =>
       match filter (fun r => merged_user_id r =? k) merged_df with
       | [] => []
       | first :: rest =>
           [mkUser k (merged_ab_test_group first)
              (sum (map merged_conversion_count (first :: rest)))
              (nansum (map merged_revenue_eur (first :: rest)))]
       end)
    (sorted_keys (map merged_user_id merged_df)).

Definition _merge_into_users_df (marks_df : frame) (attributions_df : list attribution)
  : list user :=
  let merged_df := merge_left (frame_rows marks_df) attributions_df in
  let merged_df :=
    map (fun r => mkMerged (merged_user_id r) (merged_ab_test_group r) (ts_x r) (ts_y r)
                    (merged_revenue_eur r)
                    (bool_times (negb (isnull (ts_y r))) 1)) merged_df in
  let merged_df :=
    map (fun r => mkMerged (merged_user_id r) (merged_ab_test_group r) (ts_x r) (ts_y r)
                    (merged_revenue_eur r)
                    (bool_times (lt_nan (ts_x r) (ts_y r)) (merged_conversion_count r)))
        merged_df in
  let merged_df :=
    map (fun r => mkMerged (merged_user_id r) (merged_ab_test_group r) (ts_x r) (ts_y r)
                    (bool_times_nan (lt_nan (ts_x r) (ts_y r)) (merged_revenue_eur r))
                    (merged_conversion_count r))
        merged_df in
  let users_df := groupby_user_id_agg merged_df in
  users_df.

(** [groupby(by='ab_test_group').get_group(name)]: the rows of the group;
    a name that no row carries is a [KeyError]. *)
Definition get_group (name : group) (users_df : list user) : result (list user) :=
  match filter (fun u => group_eqb (users_ab_test_group u) name) users_df with
  | [] => Error KeyError
  | rows => Value rows
  end.

(** ** Floats

    A float is a rational or one of the three non-finite values.  Zero has
    no sign here: a division of a non-zero number by zero yields the
    infinity of the sign of the numerator. *)

Inductive fval : Type :=
| Num (q : Q)
| PosInf
| NegInf
| NaN.

Definition of_int (z : Z) : fval := Num (inject_Z z).

Definition fneg (x : fval) : fval :=
  match x with
  | Num a => Num (- a)
  | PosInf => NegInf
  | NegInf => PosInf
  | NaN => NaN
  end.

Definition fadd (x y : fval) : fval :=
  match x, y with
  | NaN, _ | _, NaN => NaN
  | Num a, Num b => Num (a + b)
  | PosInf, NegInf | NegInf, PosInf => NaN
  | PosInf, _ | _, PosInf => PosInf
  | NegInf, _ | _, NegInf => NegInf
  end.

Definition fsub (x y : fval) : fval := fadd x (fneg y).

(** The infinity of the sign of [a]; [0 * inf] is NaN. *)
Definition inf_of_sign (a : Q) (positive : bool) : fval :=
  match (a ?= 0)%Q with
  | Eq => NaN
  | Gt => if positive then PosInf else NegInf
  | Lt => if positive then NegInf else PosInf
  end.

Definition fmul (x y : fval) : fval :=
  match x, y with
  | NaN, _ | _, NaN => NaN
  | Num a, Num b => Num (a * b)
  | Num a, PosInf | PosInf, Num a => inf_of_sign a true
  | Num a, NegInf | NegInf, Num a => inf_of_sign a false
  | PosInf, PosInf | NegInf, NegInf => PosInf
  | PosInf, NegInf | NegInf, PosInf => NegInf
  end.

Definition fdiv (x y : fval) : fval :=
  match x, y with
  | NaN, _ | _, NaN => NaN
  | Num a, Num b =>
      match (b ?= 0)%Q with
      | Eq => inf_of_sign a true
      | _ => Num (a / b)
      end
  | Num _, _ => Num 0
  | PosInf, Num b => match (b ?= 0)%Q with Lt => NegInf | _ => PosInf end
  | NegInf, Num b => match (b ?= 0)%Q with Lt => PosInf | _ => NegInf end
  | _, _ => NaN
  end.

(** [x < y]; every comparison against NaN is [False]. *)
Definition fltb (x y : fval) : bool :=
  match x, y with
  | NaN, _ | _, NaN => false
  | Num a, Num b => match (a ?= b)%Q with Lt => true | _ => false end
  | NegInf, NegInf | PosInf, _ => false
  | NegInf, _ | _, PosInf => true
  | _, NegInf => false
  end.

Declare Scope fval_scope.
Delimit Scope fval_scope with F.
Infix "+" := fadd : fval_scope.
Infix "-" := fsub : fval_scope.
Infix "*" := fmul : fval_scope.
Infix "/" := fdiv : fval_scope.
Infix "<?" := fltb : fval_scope.

(** [int(x)] truncates towards zero. *)
Definition int (x : Q) : Z :=
  match (x ?= 0)%Q with
  | Lt => Qceiling x
  | _ => Qfloor x
  end.

(** [l[i]] on a Python list: a negative index counts from the end. *)
Definition getitem {A} (l : list A) (i : Z) : result A :=
  let n := Z.of_nat (length l) in
  let j := if i <? 0 then i + n else i in
  if (0 <=? j) && (j <? n) then
    match nth_error l (Z.to_nat j) with
    | Some x => Value x
    | None => Error IndexError
    end
  else Error IndexError.

(** ** The [Helpers] object *)

Record Helpers : Type := mkHelpers {
  groups : list (string * list Z);
  per_campaign_results : bool;
  confidence_level : Q;
  bootstrap_size : Z
}.

(** [Helpers.__init__], for the attributes the report computation reads. *)
Definition __init__ (groups : list (string * list Z)) (per_campaign_results : bool)
    (confidence_level : Q) (bootstrap_size : Z) : Helpers :=
  mkHelpers groups per_campaign_results confidence_level
    (if bootstrap_size mod 10 =? 0
     then (* we have a round number, round number - 1 gives the best results *)
       bootstrap_size - 1
     else (* it ain't round, just use it "as is" *)
       bootstrap_size).

Definition default_confidence_level : Q := 95 # 100.
Definition default_bootstrap_size : Z := 10000.

(** ** The quantile indices in binary64

    [_bootstrap_mean_ci] below evaluates its two index expressions in exact
    arithmetic.  Python evaluates them in binary64, rounding after every
    operation, and truncates the result; [float_lower_index] and
    [float_upper_index] are the expressions evaluated that way, on the
    floats of the Standard Library's [SpecFloat]. *)

(** [float(z)] *)
Definition binary64_of_Z (z : Z) : spec_float := binary_normalize 53 1024 z 0 false.

(** The double nearest to a fraction, ties to even: the float that a literal
    of this decimal value denotes. *)
Definition binary64_of_Q (q : Q) : spec_float :=
  let num := Z.abs (Qnum q) in
  let den := Zpos (Qden q) in
  if num =? 0 then S754_zero false
  else
    let scaled e := if 0 <=? e then (num, den * 2 ^ e) else (num * 2 ^ (- e), den) in
    let e0 := Z.log2 num - Z.log2 den - 52 in
    let e := if fst (scaled e0) / snd (scaled e0) <? 2 ^ 52 then e0 - 1 else e0 in
    let (a, b) := scaled e in
    let m := a / b in
    let r := a mod b in
    let m := if 2 * r <? b then m
             else if b <? 2 * r then m + 1
             else if Z.even m then m else m + 1 in
    binary_normalize 53 1024 (if Qnum q <? 0 then - m else m) e false.

(** [int(x)] of a float truncates towards zero; there is no integer for an
    infinity or NaN. *)
Definition int_of_binary64 (x : spec_float) : option Z :=
  match x with
  | S754_zero _ => Some 0
  | S754_finite s m e =>
      let a := if 0 <=? e then Zpos m * 2 ^ e else Zpos m / 2 ^ (- e) in
      Some (if s then - a else a)
  | _ => None
  end.

(** [int(((1 - self.confidence_level) / 2) * (self.bootstrap_size + 1))] *)
Definition float_lower_index (self : Helpers) : option Z :=
  int_of_binary64
    (SFmul 53 1024
       (SFdiv 53 1024
          (SFsub 53 1024 (binary64_of_Z 1) (binary64_of_Q (confidence_level self)))
          (binary64_of_Z 2))
       (binary64_of_Z (bootstrap_size self + 1))).

(** [int(((1 - self.confidence_level) / 2 + self.confidence_level)
         * (self.bootstrap_size + 1))] *)
Definition float_upper_index (self : Helpers) : option Z :=
  int_of_binary64
    (SFmul 53 1024
       (SFadd 53 1024
          (SFdiv 53 1024
             (SFsub 53 1024 (binary64_of_Z 1) (binary64_of_Q (confidence_level self)))
             (binary64_of_Z 2))
          (binary64_of_Q (confidence_level self)))
       (binary64_of_Z (bootstrap_size self + 1))).

(** ** The report of one slice

    One field per row of the frame that [_uplift] builds, in the order of
    [dataframe_dict].  The row labels are not modelled.  A cell that can hold
    a sentinel text is a [cell]. *)

Inductive cell : Type :=
| Float (x : fval)
| Str (s : string).

Record report : Type := mkReport {
  ad_spend : fval;
  total_revenue : fval;
  control_group_size : Z;
  test_group_size : Z;
  ratio_test_control : fval;
  control_converters : Z;
  control_converters_scaled : fval;
  test_converters : Z;
  incremental_converters_estimate : fval;
  incremental_converters_l_bound : fval;
  incremental_converters_u_bound : fval;
  cost_per_incremental_converter_estimate : cell;
  cost_per_incremental_converter_l_bound : cell;
  cost_per_incremental_converter_u_bound : cell;
  control_conversions : Z;
  control_conversions_scaled : fval;
  test_conversions : Z;
  incremental_conversions_estimate : fval;
  incremental_conversions_l_bound : fval;
  incremental_conversions_u_bound : fval;
  icpa_estimate : cell;
  icpa_l_bound : cell;
  icpa_u_bound : cell;
  control_cvr : fval;
  test_cvr : fval;
  uplift_estimate : fval;
  uplift_l_bound : fval;
  uplift_u_bound : fval;
  control_revenue : fval;
  control_revenue_scaled : fval;
  test_revenue : fval;
  incremental_revenue_estimate : fval;
  incremental_revenue_l_bound : fval;
  incremental_revenue_u_bound : fval;
  iroas_estimate : fval;
  iroas_l_bound : fval;
  iroas_u_bound : fval;
  rev_per_conversion_control : fval;
  rev_per_conversion_test : fval
}.

(** [cell < 0] for a cell that still holds its number. *)
Definition negative (x : fval) : bool := (x <? of_int 0)%F.

(** [(column > 0).sum()] *)
Definition count_positive (column : list Z) : Z :=
  Z.of_nat (length (filter (fun c => 0 <? c) column)).

(** [for _ in range(n)] as a list comprehension. *)
Fixpoint comprehension {A} (n : nat) (body : M A) : M (list A) :=
  match n with
  | O => ret []
  | S n =>
      bind body (fun x => bind (comprehension n body) (fun xs => ret (x :: xs)))
  end.

(** [array.mean()]; NaN for an empty array. *)
Definition mean (a : list Z) : fval :=
  (of_int (sum a) / of_int (Z.of_nat (length a)))%F.

(** The labels of the interval bounds are f-strings that read a global
    [CONFIDENCE_LEVEL].  The module does not bind this name: its one import
    from [lib.const] lists [__version__], [TEST], [CONTROL],
    [CSV_SOURCE_MARKS_AND_SPEND], [CSV_SOURCE_ATTRIBUTIONS] and
    [USER_ID_LENGTH], and no statement of the module assigns it. *)
Definition CONFIDENCE_LEVEL : option Q := None.

Section Estimator.
(** [scipy.stats.binom.ppf(q, n, p)] *)
Variable binom_ppf : fval -> Z -> fval -> fval.
(** The raw draws of numpy's global generator, in the order in which they
    are handed out. *)
Variable rng : N -> nat.

(** [np.random.choice(a, size, replace=True)]: [size] independent picks,
    each an element of [a]; picking from an empty [a] is an error unless
    nothing is picked. *)
Definition random_choice (a : list Z) (size : nat) : M (list Z) :=
  fun s =>
    match a, size with
    | [], S _ => Raise ValueError
    | _, _ =>
        Ok (map (fun j => nth (Nat.modulo (rng (rng_pos s + N.of_nat j)%N) (length a)) a 0)
              (seq 0 size))
           (mkState (rng_pos s + N.of_nat size)%N (stdout s))
    end.

(** ** [Helpers._bootstrap_mean_ci] (without the optional plot)

    The two indices are evaluated in exact arithmetic here; see
    [float_lower_index] and [float_upper_index] for their binary64 values. *)
Definition _bootstrap_mean_ci (self : Helpers) (sample : list Z) : M (fval * fval) :=
  (bootstrapped_means <-
     comprehension (Z.to_nat (bootstrap_size self))
       (resample <- random_choice sample (length sample) ;; ret (mean resample)) ;;
   let bootstrapped_means := sort_by fltb bootstrapped_means in
   lower_bound <-
     lift (getitem bootstrapped_means
             (int (((1 - confidence_level self) / 2)
                   * inject_Z (bootstrap_size self + 1)))) ;;
   upper_bound <-
     lift (getitem bootstrapped_means
             (int (((1 - confidence_level self) / 2 + confidence_level self)
                   * inject_Z (bootstrap_size self + 1)))) ;;
   ret (lower_bound, upper_bound))%py.

(** ** [Helpers._uplift] (without the optional plot) *)
Definition _uplift (self : Helpers) (marks_and_spend_df : list event)
    (attributions_df : list attribution) (index_name : string) : M (option report) :=
  ((* filter for mark events *)
   marks_df <- lift (_marked (with_event_type marks_and_spend_df)) ;;
   (* calculate the ad spend *)
   let ad_spend := Num (_calculate_ad_spend marks_and_spend_df) in
   (* join marks and revenue events *)
   let merged_users_df := _merge_into_users_df marks_df attributions_df in
   test_users_df <- lift (get_group TEST merged_users_df) ;;
   let test_group_size := Z.of_nat (length test_users_df) in
   if test_group_size =? 0 then
     log ("WARNING: No users marked as test for " ++ " " ++ index_name ++ " " ++ "skipping.. ") ;;;
     ret None
   else
   control_users_df <- lift (get_group CONTROL merged_users_df) ;;
   let control_group_size := Z.of_nat (length control_users_df) in
   if control_group_size =? 0 then
     log ("WARNING: No users marked as control for " ++ " " ++ index_name ++ " " ++ "skipping.. ") ;;;
     ret None
   else
   let test_revenue_micros := sum (map revenue_eur test_users_df) in
   let test_conversions := sum (map conversion_count test_users_df) in
   let test_converters := count_positive (map conversion_count test_users_df) in
   let control_revenue_micros := sum (map revenue_eur control_users_df) in
   let control_conversions := sum (map conversion_count control_users_df) in
   let control_converters := count_positive (map conversion_count control_users_df) in
   (* samples for bootstrapping *)
   let control_group_conversions_sample := map conversion_count control_users_df in
   let control_group_revenue_sample := map revenue_eur control_users_df in
   let ratio := (of_int test_group_size / of_int control_group_size)%F in
   (* Converter KPIs *)
   let scaled_control_converters := (of_int control_converters * ratio)%F in
   let no_treat_converters_l_bound :=
     binom_ppf (Num ((1 - confidence_level self) / 2)) control_group_size
       (of_int control_converters / of_int control_group_size)%F in
   let no_treat_converters_u_bound :=
     binom_ppf (Num ((1 - confidence_level self) / 2 + confidence_level self))
       control_group_size
       (of_int control_converters / of_int control_group_size)%F in
   let incremental_converters_estimate :=
     (of_int test_converters - of_int control_converters * ratio)%F in
   let incremental_converters_l_bound :=
     (of_int test_converters - no_treat_converters_u_bound * ratio)%F in
   let incremental_converters_u_bound :=
     (of_int test_converters - no_treat_converters_l_bound * ratio)%F in
   let cost_per_incremental_converter_estimate :=
     (ad_spend / incremental_converters_estimate)%F in
   let cost_per_incremental_converter_l_bound :=
     (ad_spend / incremental_converters_u_bound)%F in
   let cost_per_incremental_converter_u_bound :=
     (ad_spend / incremental_converters_l_bound)%F in
   let cost_per_incremental_converter_estimate :=
     if negative cost_per_incremental_converter_estimate
     then Str "Negative incremental converters estimate"
     else Float cost_per_incremental_converter_estimate in
   let cost_per_incremental_converter_l_bound :=
     if negative cost_per_incremental_converter_u_bound
     then Str "CI contains negative value, cannot be intepreted"
     else Float cost_per_incremental_converter_l_bound in
   let cost_per_incremental_converter_u_bound :=
     if negative cost_per_incremental_converter_u_bound
     then Str "CI contains negative value, cannot be intepreted"
     else Float cost_per_incremental_converter_u_bound in
   (* Conversion KPIs *)
   let scaled_control_conversions := (of_int control_conversions * ratio)%F in
   '(mean_no_treat_conversions_l_bound, mean_no_treat_conversions_u_bound) <-
     _bootstrap_mean_ci self control_group_conversions_sample ;;
   let scaled_no_treat_conversions_l_bound :=
     (mean_no_treat_conversions_l_bound * of_int control_group_size * ratio)%F in
   let scaled_no_treat_conversions_u_bound :=
     (mean_no_treat_conversions_u_bound * of_int control_group_size * ratio)%F in
   let incremental_conversions_estimate :=
     (of_int test_conversions - scaled_control_conversions)%F in
   let incremental_conversions_l_bound :=
     (of_int test_conversions - scaled_no_treat_conversions_u_bound)%F in
   let incremental_conversions_u_bound :=
     (of_int test_conversions - scaled_no_treat_conversions_l_bound)%F in
   let icpa_estimate := (ad_spend / incremental_conversions_estimate)%F in
   let icpa_l_bound := (ad_spend / incremental_conversions_u_bound)%F in
   let icpa_u_bound := (ad_spend / incremental_conversions_l_bound)%F in
   let icpa_estimate :=
     if negative icpa_estimate
     then Str "Negative incremental conversions estimate"
     else Float icpa_estimate in
   let icpa_l_bound :=
     if negative icpa_u_bound
     then Str "CI contains negative value, cannot be intepreted"
     else Float icpa_l_bound in
   let icpa_u_bound :=
     if negative icpa_u_bound
     then Str "CI contains negative value, cannot be intepreted"
     else Float icpa_u_bound in
   let no_treat_cvr_l_bound :=
     (scaled_no_treat_conversions_l_bound / of_int test_group_size)%F in
   let no_treat_cvr_u_bound :=
     (scaled_no_treat_conversions_u_bound / of_int test_group_size)%F in
   let uplift_estimate := of_int 0 in
   let test_cvr := (of_int test_conversions / of_int test_group_size)%F in
   let control_cvr := (of_int control_conversions / of_int control_group_size)%F in
   (* [uplift_l_bound] and [uplift_u_bound] are assigned in the branch
      [if control_cvr > 0] only *)
   let uplift_estimate :=
     if (of_int 0 <? control_cvr)%F
     then (test_cvr / control_cvr - of_int 1)%F
     else uplift_estimate in
   let uplift_l_bound :=
     if (of_int 0 <? control_cvr)%F
     then Some (test_cvr / no_treat_cvr_u_bound - of_int 1)%F
     else None in
   let uplift_u_bound :=
     if (of_int 0 <? control_cvr)%F
     then Some (test_cvr / no_treat_cvr_l_bound - of_int 1)%F
     else None in
   (* Revenue KPIs *)
   let test_revenue := (of_int test_revenue_micros / of_int (10 ^ 6))%F in
   let control_revenue := (of_int control_revenue_micros / of_int (10 ^ 6))%F in
   let scaled_control_revenue := (control_revenue * ratio)%F in
   '(mean_no_treat_revenue_micro_l_bound, mean_no_treat_revenue_micro_u_bound) <-
     _bootstrap_mean_ci self control_group_revenue_sample ;;
   let scaled_no_treat_revenue_l_bound :=
     (mean_no_treat_revenue_micro_l_bound * of_int control_group_size * ratio
      / of_int (10 ^ 6))%F in
   let scaled_no_treat_revenue_u_bound :=
     (mean_no_treat_revenue_micro_u_bound * of_int control_group_size * ratio
      / of_int (10 ^ 6))%F in
   let incremental_revenue_estimate := (test_revenue - scaled_control_revenue)%F in
   let incremental_revenue_l_bound := (test_revenue - scaled_no_treat_revenue_u_bound)%F in
   let incremental_revenue_u_bound := (test_revenue - scaled_no_treat_revenue_l_bound)%F in
   let iroas_estimate := (incremental_revenue_estimate / ad_spend)%F in
   let iroas_l_bound := (incremental_revenue_l_bound / ad_spend)%F in
   let iroas_u_bound := (incremental_revenue_u_bound / ad_spend)%F in
   let rev_per_conversion_test :=
     if 0 <? test_conversions
     then (test_revenue / of_int test_conversions)%F else of_int 0 in
   let rev_per_conversion_control :=
     if 0 <? control_conversions
     then (control_revenue / of_int control_conversions)%F else of_int 0 in
   (* Output: the entries of [dataframe_dict] are evaluated in order, and
      the key of the tenth is the first that reads [CONFIDENCE_LEVEL]; the
      values of the entries before it are locals that are assigned *)
   load_global CONFIDENCE_LEVEL ;;;
   uplift_l_bound <- load_local uplift_l_bound ;;
   uplift_u_bound <- load_local uplift_u_bound ;;
   ret (Some (mkReport
     ad_spend
     (test_revenue + control_revenue)%F
     control_group_size
     test_group_size
     ratio
     control_converters
     scaled_control_converters
     test_converters
     incremental_converters_estimate
     incremental_converters_l_bound
     incremental_converters_u_bound
     cost_per_incremental_converter_estimate
     cost_per_incremental_converter_l_bound
     cost_per_incremental_converter_u_bound
     control_conversions
     scaled_control_conversions
     test_conversions
     incremental_conversions_estimate
     incremental_conversions_l_bound
     incremental_conversions_u_bound
     icpa_estimate
     icpa_l_bound
     icpa_u_bound
     control_cvr
     test_cvr
     uplift_estimate
     uplift_l_bound
     uplift_u_bound
     control_revenue
     scaled_control_revenue
     test_revenue
     incremental_revenue_estimate
     incremental_revenue_l_bound
     incremental_revenue_u_bound
     iroas_estimate
     iroas_l_bound
     iroas_u_bound
     rev_per_conversion_control
     rev_per_conversion_test)))%py.

(** ** [Helpers.uplift_report]

    The report frame is the list of its columns, left to right; a column
    is the report of a slice, or [None] when the column was assigned
    [None]. *)

(** [report_df[name] = column] *)
Fixpoint setitem (report_df : list (string * option report)) (name : string)
    (column : option report) : list (string * option report) :=
  match report_df with
  | [] => [(name, column)]
  | (n, c) :: rest =>
      if String.eqb n name then (n, column) :: rest
      else (n, c) :: setitem rest name column
  end.

(** [for x in xs: body], threading the frame that the body updates. *)
Fixpoint for_each {A B} (xs : list A) (body : A -> B -> M B) (acc : B) : M B :=
  match xs with
  | [] => ret acc
  | x :: rest => bind (body x acc) (fun acc => for_each rest body acc)
  end.

(** [column.isin(values)] *)
Definition isin (x : Z) (values : list Z) : bool := existsb (Z.eqb x) values.

(** [column.unique()]: the distinct values in order of first appearance. *)
Fixpoint unique (column : list Z) : list Z :=
  match column with
  | [] => []
  | x :: rest => x :: filter (fun y => negb (y =? x)) (unique rest)
  end.

(** ["c_{0}".format(campaign)] *)
Definition campaign_name (campaign : Z) : string :=
  "c_" ++ NilZero.string_of_int (Z.to_int campaign).

Definition uplift_report (self : Helpers) (marks_and_spend_df : list event)
    (attributions_df : list attribution) : M (option (list (string * option report))) :=
  ((* calculate the total result *)
   total <- _uplift self marks_and_spend_df attributions_df "total" ;;
   let report_df := option_map (fun column => [("total"%string, Some column)]) total in
   (* if there are groups filter the events against the per campaign groups *)
   report_df <-
     match report_df, groups self with
     | Some report_df, _ :: _ =>
         report_df <-
           for_each (groups self)
             (fun '(name, campaigns) report_df =>
                let group_df :=
                  filter (fun e => isin (campaign_id e) campaigns) marks_and_spend_df in
                column <- _uplift self group_df attributions_df name ;;
                ret (setitem report_df name column))
             report_df ;;
         ret (Some report_df)
     | _, _ => ret report_df
     end ;;
   report_df <-
     match report_df, per_campaign_results self with
     | Some report_df, true =>
         let campaigns := unique (map campaign_id marks_and_spend_df) in
         report_df <-
           for_each campaigns
             (fun campaign report_df =>
                let name := campaign_name campaign in
                let campaign_df :=
                  filter (fun e => campaign_id e =? campaign) marks_and_spend_df in
                column <- _uplift self campaign_df attributions_df name ;;
                ret (setitem report_df name column))
             report_df ;;
         ret (Some report_df)
     | _, _ => ret report_df
     end ;;
   ret report_df)%py.
End Estimator.

(** ** The guard of [Helpers._old_uplift]

    The earlier report decides whether to skip a slice from the marks alone,
    before any group is looked up: it counts the distinct users of each group
    among the marks.  [Some tt] stands for going on with the computation. *)
Definition nunique_users (name : group) (marks_df : list mark) : Z :=
  Z.of_nat (length (nodup Z.eq_dec
    (map mark_user_id (filter (fun m => group_eqb (mark_ab_test_group m) name) marks_df)))).

Definition _old_uplift_guard (marks_and_spend_df : list event) (index_name : string)
  : M (option unit) :=
  (marks_df <- lift (_marked (with_event_type marks_and_spend_df)) ;;
   let test_group_size := nunique_users TEST (frame_rows marks_df) in
   if test_group_size =? 0 then
     log ("WARNING: No users marked as test for " ++ " " ++ index_name ++ " " ++ "skipping.. ") ;;;
     ret None
   else
   let control_group_size := nunique_users CONTROL (frame_rows marks_df) in
   if control_group_size =? 0 then
     log ("WARNING: No users marked as control for " ++ " " ++ index_name ++ " " ++ "skipping.. ") ;;;
     ret None
   else ret (Some tt))%py.

(** ** Instances of the external functions, for evaluating the model

    [binom_ppf_exact] is the inverse cumulative distribution function of the
    binomial distribution in exact arithmetic: the least [k] whose cumulative
    probability reaches [q]. *)

(** The binomial coefficient, by [C(n, i + 1) = C(n, i) * (n - i) / (i + 1)]. *)
Fixpoint binomial_from (steps : nat) (i : Z) (c : Z) (n : Z) : Z :=
  match steps with
  | O => c
  | S steps => binomial_from steps (i + 1) (c * (n - i) / (i + 1)) n
  end.

Definition binomial (n k : nat) : Z := binomial_from k 0 1 (Z.of_nat n).

Definition binom_pmf (n : nat) (p : Q) (k : nat) : Q :=
  Qred (inject_Z (binomial n k) * Qpower p (Z.of_nat k)
        * Qpower (1 - p) (Z.of_nat (n - k))).

Fixpoint ppf_search (fuel : nat) (k : nat) (cdf : Q) (q : Q) (n : nat) (p : Q) : nat :=
  match fuel with
  | O => k
  | S fuel =>
      let cdf := Qred (cdf + binom_pmf n p k) in
      if Qle_bool q cdf then k else ppf_search fuel (S k) cdf q n p
  end.

Definition binom_ppf_exact (q : fval) (n : Z) (p : fval) : fval :=
  match q, p with
  | Num q, Num p =>
      if Qle_bool 0 p && Qle_bool p 1 && Qle_bool 0 q && Qle_bool q 1 && (0 <=? n)
      then if Qle_bool q 0 then of_int (-1)
           else of_int (Z.of_nat (ppf_search (Z.to_nat n) 0 0 q (Z.to_nat n) p))
      else NaN
  | _, _ => NaN
  end.

(** A fixed sequence of raw draws. *)
Definition example_rng (i : N) : nat :=
  Z.to_nat ((Z.of_N i * Z.of_N i + 7 * Z.of_N i + 3) mod 1009).
(** * Properties *)

(** ** Sorting *)

Section SortingFacts.
Variable A : Type.
Variable ltb : A -> A -> bool.

Lemma insert_by_perm (x : A) (l : list A) : Permutation (x :: l) (insert_by ltb x l).
Proof.
  induction l as [|y t IH]; simpl; [reflexivity|].
  destruct (ltb y x); [|reflexivity].
  rewrite perm_swap. now constructor.
Qed.

Lemma sort_by_perm (l : list A) : Permutation l (sort_by ltb l).
Proof.
  induction l as [|x t IH]; simpl; [constructor|].
  rewrite <- insert_by_perm. now constructor.
Qed.

Lemma sort_by_length (l : list A) : length (sort_by ltb l) = length l.
Proof. symmetry. apply Permutation_length, sort_by_perm. Qed.

Lemma sort_by_In (l : list A) (x : A) : In x (sort_by ltb l) <-> In x l.
Proof.
  split; apply Permutation_in; [symmetry|]; apply sort_by_perm.
Qed.

Hypothesis ltb_asym : forall x y, ltb x y = true -> ltb y x = false.
Hypothesis ltb_trans_neg :
  forall x y z, ltb y x = false -> ltb z y = false -> ltb z x = false.

Lemma insert_by_sorted (x : A) (l : list A) :
  StronglySorted (ordered ltb) l -> StronglySorted (ordered ltb) (insert_by ltb x l).
Proof.
  induction 1 as [|y t Ht IH Hy]; simpl.
  - repeat constructor.
  - destruct (ltb y x) eqn:E.
    + constructor; [exact IH|].
      rewrite Forall_forall in *. intros z Hz.
      apply (Permutation_in _ (Permutation_sym (insert_by_perm x t))) in Hz.
      destruct Hz as [<-|Hz]; [apply ltb_asym, E | now apply Hy].
    + constructor; [now constructor|].
      constructor; [exact E|].
      rewrite Forall_forall in *. intros z Hz.
      unfold ordered. apply ltb_trans_neg with y; [exact E | now apply Hy].
Qed.

Lemma sort_by_sorted (l : list A) : StronglySorted (ordered ltb) (sort_by ltb l).
Proof.
  induction l as [|x t IH]; simpl; [constructor | now apply insert_by_sorted].
Qed.

(** Sorting a list that is already in order changes nothing. *)
Lemma insert_by_head (x : A) (l : list A) :
  Forall ((ordered ltb) x) l -> insert_by ltb x l = x :: l.
Proof.
  destruct l as [|y t]; simpl; [reflexivity|].
  intros H. inversion H as [|? ? Hxy _]; subst.
  unfold ordered in Hxy. now rewrite Hxy.
Qed.

Lemma sort_by_sorted_id (l : list A) :
  StronglySorted (ordered ltb) l -> sort_by ltb l = l.
Proof.
  induction 1 as [|x t Ht IH Hx]; simpl; [reflexivity|].
  rewrite IH. now apply insert_by_head.
Qed.
End SortingFacts.



Lemma shift_from_length {A} (fill : option A) (l : list A) :
  length (shift_from fill l) = length l.
Proof. revert fill. induction l; intros; simpl; auto. Qed.



(** ** Deduplication of attributions *)

Lemma user_revenue_ltb_asym (a b : attribution) :
  user_revenue_ltb a b = true -> user_revenue_ltb b a = false.
Proof. unfold user_revenue_ltb. lia. Qed.

Lemma user_revenue_ltb_trans_neg (a b c : attribution) :
  user_revenue_ltb b a = false -> user_revenue_ltb c b = false ->
  user_revenue_ltb c a = false.
Proof. unfold user_revenue_ltb. lia. Qed.







(** The order of [sort_values(['user_id', 'revenue_eur'])], spelled out. *)
Definition user_revenue_le (a b : attribution) : Prop :=
  attr_user_id a < attr_user_id b
  \/ (attr_user_id a = attr_user_id b /\ attr_revenue_eur a <= attr_revenue_eur b).

Lemma ordered_user_revenue_le (a b : attribution) :
  ordered user_revenue_ltb a b -> user_revenue_le a b.
Proof. unfold ordered, user_revenue_ltb, user_revenue_le. lia. Qed.

Lemma StronglySorted_impl {A} (R S : A -> A -> Prop) (l : list A) :
  (forall a b, R a b -> S a b) -> StronglySorted R l -> StronglySorted S l.
Proof.
  intros HRS. induction 1 as [|x t Ht IH Hx]; constructor; auto.
  eapply Forall_impl; [|exact Hx]. auto.
Qed.

(** An integer that a 64-bit float holds exactly. *)
Definition exact_in_float64 (z : Z) : Prop := Z.abs z <= 2 ^ 53.

Lemma float64_exact (z : Z) : exact_in_float64 z -> float64 z = z.
Proof.
  unfold exact_in_float64. intros H.
  destruct (Z.eq_dec (Z.abs z) (2 ^ 53)) as [E|E].
  - assert (Hz : z = 2 ^ 53 \/ z = - 2 ^ 53) by lia.
    destruct Hz as [->| ->]; vm_compute; reflexivity.
  - unfold float64. replace (Z.abs z <? 2 ^ 53) with true by lia. reflexivity.
Qed.

(** Above 2^53 distinct integers share a float. *)
Example float64_rounds :
  float64 (2 ^ 60 + 1) = 2 ^ 60 /\ float64 (2 ^ 53 + 1) = 2 ^ 53
  /\ float64 (2 ^ 53 + 3) = 2 ^ 53 + 4 /\ float64 (- (2 ^ 60 + 1)) = - 2 ^ 60.
Proof. repeat split. Qed.

(** A row whose three columns survive the passage through float64. *)
Definition representable (a : attribution) : Prop :=
  exact_in_float64 (attr_ts a)
  /\ exact_in_float64 (attr_user_id a)
  /\ exact_in_float64 (attr_revenue_eur a).


Lemma differs_from_last_false (gap : Z) (row last : attribution) :
  float64 (attr_user_id row) = float64 (attr_user_id last) ->
  float64 (attr_revenue_eur row) = float64 (attr_revenue_eur last) ->
  attr_ts row - float64 (attr_ts last) <= gap ->
  differs_from_last gap (row, Some last) = false.
Proof. cbn [differs_from_last]. lia. Qed.




(** Timestamps that come from the loader are seconds in a 32-bit integer:
    no two of them are a [Timedelta_1_minute] of column units apart, and a row
    that shares user and revenue with the row before it is dropped whatever
    the time between them, an hour in the example. *)
Lemma loaded_rows_never_far_apart (row last : attribution) :
  - 2 ^ 31 <= attr_ts row < 2 ^ 31 ->
  - 2 ^ 31 <= attr_ts last < 2 ^ 31 ->
  float64 (attr_user_id row) = float64 (attr_user_id last) ->
  float64 (attr_revenue_eur row) = float64 (attr_revenue_eur last) ->
  differs_from_last Timedelta_1_minute (row, Some last) = false.
Proof.
  intros Hrow Hlast Hu Hr. apply differs_from_last_false; [exact Hu | exact Hr|].
  rewrite float64_exact by (unfold exact_in_float64; lia).
  unfold Timedelta_1_minute. lia.
Qed.

Example deduplicate_loaded_one_hour_apart :
  deduplicate_loaded true [mkAttribution 0 1 5; mkAttribution 3600 1 5]
  = [mkAttribution 0 1 5].
Proof. reflexivity. Qed.

(** Two users whose ids are distinct integers above 2^53 that share a float:
    the row of the second user is dropped as a duplicate of the first. *)
Example deduplicate_distinct_users_one_float :
  _drop_duplicates_in_attributions
    [mkAttribution 0 (2 ^ 60) 5; mkAttribution 0 (2 ^ 60 + 1) 5] 60
  = [mkAttribution 0 (2 ^ 60) 5].
Proof. reflexivity. Qed.

(** ** Mark extraction *)

Lemma existsb_eqb_In (x : Z) (seen : list Z) :
  existsb (Z.eqb x) seen = true <-> In x seen.
Proof.
  rewrite existsb_exists. split.
  - intros (y & Hy & E). apply Z.eqb_eq in E. now subst.
  - intros H. exists x. split; [exact H | apply Z.eqb_refl].
Qed.

Lemma existsb_eqb_not_In (x : Z) (seen : list Z) :
  existsb (Z.eqb x) seen = false <-> ~ In x seen.
Proof.
  rewrite <- existsb_eqb_In. destruct (existsb (Z.eqb x) seen); split; congruence.
Qed.

Lemma drop_duplicates_from_In (df : list mark) : forall (seen : list Z) (row : mark),
  In row (drop_duplicates_from seen df) ->
  In row df /\ ~ In (mark_user_id row) seen.
Proof.
  induction df as [|x rest IH]; intros seen row H; [contradiction|].
  cbn [drop_duplicates_from] in H.
  destruct (existsb (Z.eqb (mark_user_id x)) seen) eqn:E.
  - apply IH in H as [H1 H2]. split; [now right | exact H2].
  - destruct H as [<-|H].
    + split; [now left | now apply existsb_eqb_not_In].
    + apply IH in H as [H1 H2]. split; [now right|].
      intros Hin. apply H2. now right.
Qed.

Lemma drop_duplicates_from_NoDup (df : list mark) : forall seen : list Z,
  NoDup (map mark_user_id (drop_duplicates_from seen df)).
Proof.
  induction df as [|x rest IH]; intros seen; cbn [drop_duplicates_from]; [constructor|].
  destruct (existsb (Z.eqb (mark_user_id x)) seen); [apply IH|].
  cbn [map]. constructor; [|apply IH].
  rewrite in_map_iff. intros (row & Hu & Hrow).
  apply drop_duplicates_from_In in Hrow as [_ Hseen].
  apply Hseen. left. congruence.
Qed.

Lemma drop_duplicates_from_complete (df : list mark) : forall (seen : list Z) (m : mark),
  In m df -> ~ In (mark_user_id m) seen ->
  In (mark_user_id m) (map mark_user_id (drop_duplicates_from seen df)).
Proof.
  induction df as [|x rest IH]; intros seen m Hin Hseen; [contradiction|].
  cbn [drop_duplicates_from].
  destruct (existsb (Z.eqb (mark_user_id x)) seen) eqn:E.
  - destruct Hin as [->|Hin]; [|now apply IH].
    apply existsb_eqb_In in E. contradiction.
  - cbn [map]. destruct (Z.eq_dec (mark_user_id x) (mark_user_id m)) as [Heq|Hne].
    + left. exact Heq.
    + right. destruct Hin as [->|Hin]; [congruence|].
      apply IH; [exact Hin|]. intros [H|H]; [congruence | contradiction].
Qed.

Lemma drop_duplicates_from_sorted (R : mark -> mark -> Prop) (df : list mark) :
  StronglySorted R df -> forall seen, StronglySorted R (drop_duplicates_from seen df).
Proof.
  induction 1 as [|x rest Hrest IH Hx]; intros seen; cbn [drop_duplicates_from];
    [constructor|].
  destruct (existsb (Z.eqb (mark_user_id x)) seen); [apply IH|].
  constructor; [apply IH|].
  rewrite Forall_forall in *. intros row Hrow.
  apply drop_duplicates_from_In in Hrow as [Hrow _]. now apply Hx.
Qed.

(** The row kept for a user is the first of the user's rows. *)
Lemma drop_duplicates_from_first (R : mark -> mark -> Prop) (df : list mark) :
  (forall x, R x x) ->
  StronglySorted R df ->
  forall (seen : list Z) (row m : mark),
    In row (drop_duplicates_from seen df) -> In m df ->
    mark_user_id m = mark_user_id row -> R row m.
Proof.
  intros Hrefl. induction 1 as [|x rest Hrest IH Hx]; intros seen row m Hrow Hm Hu;
    [contradiction|].
  cbn [drop_duplicates_from] in Hrow.
  destruct (existsb (Z.eqb (mark_user_id x)) seen) eqn:E.
  - destruct Hm as [->|Hm]; [|now apply (IH seen)].
    apply drop_duplicates_from_In in Hrow as [_ Hseen].
    apply existsb_eqb_In in E. rewrite Hu in E. contradiction.
  - destruct Hrow as [<-|Hrow].
    + destruct Hm as [->|Hm]; [apply Hrefl|].
      rewrite Forall_forall in Hx. now apply Hx.
    + destruct Hm as [->|Hm]; [|now apply (IH (mark_user_id x :: seen))].
      apply drop_duplicates_from_In in Hrow as [_ Hseen].
      exfalso. apply Hseen. left. exact Hu.
Qed.

(** Without a repeated user nothing is dropped. *)
Lemma drop_duplicates_from_id (df : list mark) : forall seen : list Z,
  NoDup (map mark_user_id df) ->
  (forall row, In row df -> ~ In (mark_user_id row) seen) ->
  drop_duplicates_from seen df = df.
Proof.
  induction df as [|x rest IH]; intros seen Hnd Hseen; [reflexivity|].
  cbn [drop_duplicates_from].
  assert (E : existsb (Z.eqb (mark_user_id x)) seen = false).
  { apply existsb_eqb_not_In, Hseen. now left. }
  rewrite E. f_equal. cbn [map] in Hnd. inversion Hnd as [|? ? Hx Hrest]; subst.
  apply IH; [exact Hrest|].
  intros row Hrow [Hin|Hin].
  - apply Hx. rewrite in_map_iff. exists row. split; [congruence | exact Hrow].
  - apply (Hseen row); [now right | exact Hin].
Qed.

Definition mark_ts_le (a b : mark) : Prop := mark_ts a <= mark_ts b.

Lemma sort_values_ts_sorted (df : list mark) :
  StronglySorted (ordered mark_ts_ltb) (sort_values_ts df).
Proof.
  apply sort_by_sorted; unfold mark_ts_ltb; intros; lia.
Qed.

(** The rows that [_marked] returns for a frame of events. *)
Definition marks_of (df : list event) : list mark :=
  map drop_event_type (filter (fun e => String.eqb (event_type e) "mark") df).

Lemma _marked_events (df : list event) :
  exists out,
    _marked (with_event_type df) = Value out
    /\ frame_rows out = first_mark_per_user (marks_of df).
Proof.
  destruct df as [|e rest].
  - exists (with_event_type []). split; reflexivity.
  - eexists. split; reflexivity.
Qed.

(** [sort_values('ts')] need not keep rows of one timestamp in input order.
    Whatever sorted permutation it returns, ordering and deduplicating the
    rows of a frame that has one row per user returns the same rows, up to
    the order of rows of one timestamp. *)
Section AnySort.
Variable sort_values : list mark -> list mark.
Hypothesis sort_values_perm : forall df, Permutation df (sort_values df).

Lemma any_sort_then_drop_duplicates (rows : list mark) :
  NoDup (map mark_user_id rows) ->
  Permutation rows (drop_duplicates_user_id (sort_values rows)).
Proof.
  intros Hnd. unfold drop_duplicates_user_id.
  rewrite drop_duplicates_from_id.
  - apply sort_values_perm.
  - eapply Permutation_NoDup; [|exact Hnd].
    apply Permutation_map, sort_values_perm.
  - intros row _ [].
Qed.
End AnySort.

(** C5 (as amended).  Mark extraction on a frame of events returns a frame
    that holds one row per user among the mark events, each of them a mark
    event of the input with the earliest timestamp of its user.  Its
    order-and-deduplicate step (sort by timestamp, keep the first row of
    every user) is idempotent on the set of rows: applied to those rows it
    returns the same rows, whatever order the sort gives to rows of one
    timestamp.  The operation as a whole returns an empty output unchanged;
    applied to a non-empty output it raises [AttributeError], because the
    [event_type] column it filters on has been dropped. *)
Theorem marked_once_per_user_and_step_idempotent (df : list event) :
  exists out,
    _marked (with_event_type df) = Value out
    /\ NoDup (map mark_user_id (frame_rows out))
    /\ (forall row, In row (frame_rows out) -> In row (marks_of df))
    /\ (forall m, In m (marks_of df) ->
          exists row, In row (frame_rows out)
                      /\ mark_user_id row = mark_user_id m
                      /\ mark_ts row <= mark_ts m)
    /\ (forall sort_values : list mark -> list mark,
          (forall rows, Permutation rows (sort_values rows)) ->
          Permutation (frame_rows out)
            (drop_duplicates_user_id (sort_values (frame_rows out))))
    /\ (frame_rows out = [] -> _marked out = Value out)
    /\ (frame_rows out <> [] -> _marked out = Error AttributeError).
Proof.
  destruct (_marked_events df) as (out & Hout & Hrows).
  exists out. split; [exact Hout|]. rewrite Hrows.
  split; [apply drop_duplicates_from_NoDup|].
  split.
  { intros row Hrow. apply drop_duplicates_from_In in Hrow as [Hrow _].
    now apply sort_by_In in Hrow. }
  split.
  { intros m Hm.
    assert (Hs : In m (sort_values_ts (marks_of df))) by now apply sort_by_In.
    pose proof (drop_duplicates_from_complete _ [] m Hs (fun H => H)) as Hu.
    apply in_map_iff in Hu as (row & Hu & Hrow).
    exists row. split; [exact Hrow|]. split; [exact Hu|].
    assert (Hord : ordered mark_ts_ltb row m).
    { apply (drop_duplicates_from_first (R := ordered mark_ts_ltb)) with
        (df := sort_values_ts (marks_of df)) (seen := @nil Z); auto.
      - intros x. unfold ordered, mark_ts_ltb. lia.
      - apply sort_values_ts_sorted. }
    unfold ordered, mark_ts_ltb in Hord. lia. }
  split.
  { intros sort_values Hperm. apply any_sort_then_drop_duplicates; [exact Hperm|].
    apply drop_duplicates_from_NoDup. }
  destruct df as [|e rest].
  - cbn in Hout. injection Hout as <-. split; [reflexivity | intros H; now elim H].
  - cbn [_marked empty] in Hout. injection Hout as <-.
    cbn [frame_rows] in Hrows |- *. rewrite <- Hrows.
    destruct (first_mark_per_user _) as [|r rs].
    + split; [reflexivity | intros H; now elim H].
    + split; [discriminate | reflexivity].
Qed.

Definition mark_event (ts user : Z) (g : group) (campaign : Z) : event :=
  mkEvent ts user g campaign 0 "mark".

(** User 1 is marked at times 7 and 3: the row of time 3 is the one kept,
    and it is not later than the mark of time 7. *)
Lemma marked_once_per_user_and_step_idempotent_witness :
  exists row,
    In row (first_mark_per_user
              (marks_of [mark_event 7 1 TEST 10; mark_event 3 1 TEST 11]))
    /\ mark_user_id row = 1
    /\ mark_ts row <= 7.
Proof.
  destruct (marked_once_per_user_and_step_idempotent
              [mark_event 7 1 TEST 10; mark_event 3 1 TEST 11])
    as (out & Hout & _ & _ & Hearliest & _).
  injection Hout as <-.
  exact (Hearliest (mkMark 7 1 TEST 10 0) (or_introl eq_refl)).
Defined.

(** C5 (as stated) fails.  One mark event: mark extraction returns the one
    row without its [event_type] column, and mark extraction applied to that
    output raises [AttributeError] instead of returning it. *)
Lemma marked_twice_counterexample :
  _marked (with_event_type [mark_event 0 1 TEST 10])
  = Value (without_event_type [mkMark 0 1 TEST 10 0])
  /\ _marked (without_event_type [mkMark 0 1 TEST 10 0]) = Error AttributeError.
Proof. split; reflexivity. Qed.

(** ** Merging marks and attributions *)

Lemma sum_app (a b : list Z) : sum (a ++ b) = sum a + sum b.
Proof.
  unfold sum. induction a as [|x t IH]; cbn [fold_right app]; lia.
Qed.

Lemma nansum_app (a b : list (option Z)) : nansum (a ++ b) = nansum a + nansum b.
Proof. unfold nansum. now rewrite map_app, sum_app. Qed.

Lemma map_flat_map_comm {A B C} (f : B -> C) (g : A -> list B) (l : list A) :
  map f (flat_map g l) = flat_map (fun x => map f (g x)) l.
Proof.
  induction l as [|x t IH]; [reflexivity|].
  cbn [flat_map]. now rewrite map_app, IH.
Qed.

Lemma filter_flat_map_comm {A B} (f : B -> bool) (g : A -> list B) (l : list A) :
  filter f (flat_map g l) = flat_map (fun x => filter f (g x)) l.
Proof.
  induction l as [|x t IH]; [reflexivity|].
  cbn [flat_map]. now rewrite filter_app, IH.
Qed.

(** The attributions of a user, and those that come after a mark. *)
Definition attributions_of (attributions_df : list attribution) (u : Z) : list attribution :=
  filter (fun a => attr_user_id a =? u) attributions_df.

Definition after_mark (m : mark) (l : list attribution) : list attribution :=
  filter (fun a => mark_ts m <? attr_ts a) l.

(** The rows of the merged frame that stem from one mark, once the
    [conversion_count] and [revenue_eur] columns are rewritten. *)
Definition final_rows (attributions_df : list attribution) (m : mark) : list merged :=
  match attributions_of attributions_df (mark_user_id m) with
  | [] => [mkMerged (mark_user_id m) (mark_ab_test_group m) (mark_ts m) None None 0]
  | matches =>
      map (fun a => mkMerged (mark_user_id m) (mark_ab_test_group m) (mark_ts m)
                      (Some (attr_ts a))
                      (Some (bool_times (mark_ts m <? attr_ts a) (attr_revenue_eur a)))
                      (bool_times (mark_ts m <? attr_ts a) 1))
          matches
  end.

Lemma _merge_into_users_df_unfold (marks_df : frame) (attributions_df : list attribution) :
  _merge_into_users_df marks_df attributions_df
  = groupby_user_id_agg (flat_map (final_rows attributions_df) (frame_rows marks_df)).
Proof.
  unfold _merge_into_users_df. f_equal.
  rewrite !map_map. unfold merge_left. rewrite map_flat_map_comm.
  apply flat_map_ext. intros m. unfold final_rows, attributions_of.
  destruct (filter _ attributions_df) as [|a l]; [reflexivity|].
  rewrite map_map. reflexivity.
Qed.

Lemma final_rows_user (attributions_df : list attribution) (m : mark) (r : merged) :
  In r (final_rows attributions_df m) ->
  merged_user_id r = mark_user_id m /\ merged_ab_test_group r = mark_ab_test_group m.
Proof.
  unfold final_rows. destruct (attributions_of _ _) as [|a l].
  - intros [<-|[]]. split; reflexivity.
  - rewrite in_map_iff. intros (b & <- & _). split; reflexivity.
Qed.

Lemma final_rows_nonempty (attributions_df : list attribution) (m : mark) :
  exists first rest,
    final_rows attributions_df m = first :: rest
    /\ merged_ab_test_group first = mark_ab_test_group m.
Proof.
  unfold final_rows. destruct (attributions_of _ _) as [|a l]; cbn [map];
    eexists; eexists; split; reflexivity.
Qed.

Lemma filter_all {A} (f : A -> bool) (l : list A) :
  (forall x, In x l -> f x = true) -> filter f l = l.
Proof.
  induction l as [|x t IH]; intros H; [reflexivity|].
  cbn [filter]. rewrite (H x (or_introl eq_refl)). f_equal.
  apply IH. intros y Hy. apply H. now right.
Qed.

Lemma filter_none {A} (f : A -> bool) (l : list A) :
  (forall x, In x l -> f x = false) -> filter f l = [].
Proof.
  induction l as [|x t IH]; intros H; [reflexivity|].
  cbn [filter]. rewrite (H x (or_introl eq_refl)).
  apply IH. intros y Hy. apply H. now right.
Qed.

(** The group of a key in the merged frame is made of the rows of the marks
    of that user. *)
Lemma merged_group (attributions_df : list attribution) (marks_df : list mark) (k : Z) :
  filter (fun r => merged_user_id r =? k) (flat_map (final_rows attributions_df) marks_df)
  = flat_map (final_rows attributions_df)
      (filter (fun m => mark_user_id m =? k) marks_df).
Proof.
  rewrite filter_flat_map_comm.
  induction marks_df as [|m t IH]; [reflexivity|].
  cbn [flat_map filter]. rewrite IH.
  destruct (mark_user_id m =? k) eqn:E.
  - cbn [flat_map]. f_equal. apply filter_all.
    intros r Hr. apply final_rows_user in Hr as [-> _]. exact E.
  - rewrite filter_none; [reflexivity|].
    intros r Hr. apply final_rows_user in Hr as [-> _]. exact E.
Qed.

Lemma final_rows_conversion_count (attributions_df : list attribution) (m : mark) :
  sum (map merged_conversion_count (final_rows attributions_df m))
  = Z.of_nat (length (after_mark m (attributions_of attributions_df (mark_user_id m)))).
Proof.
  unfold final_rows.
  destruct (attributions_of _ _) as [|a l] eqn:E; [reflexivity|].
  rewrite map_map. cbn [merged_conversion_count].
  generalize (a :: l). intros matches.
  unfold sum, after_mark.
  induction matches as [|b t IH]; [reflexivity|].
  cbn [map fold_right filter]. rewrite IH.
  destruct (mark_ts m <? attr_ts b); cbn [bool_times length]; lia.
Qed.

Lemma final_rows_revenue (attributions_df : list attribution) (m : mark) :
  nansum (map merged_revenue_eur (final_rows attributions_df m))
  = sum (map attr_revenue_eur
           (after_mark m (attributions_of attributions_df (mark_user_id m)))).
Proof.
  unfold final_rows.
  destruct (attributions_of _ _) as [|a l] eqn:E; [reflexivity|].
  rewrite map_map. cbn [merged_revenue_eur]. unfold nansum. rewrite map_map.
  generalize (a :: l). intros matches.
  unfold sum, after_mark.
  induction matches as [|b t IH]; [reflexivity|].
  cbn [map fold_right filter]. rewrite IH.
  destruct (mark_ts m <? attr_ts b); cbn [bool_times map fold_right]; lia.
Qed.

Lemma sorted_keys_In (keys : list Z) (k : Z) : In k (sorted_keys keys) <-> In k keys.
Proof. unfold sorted_keys. now rewrite sort_by_In, nodup_In. Qed.

Lemma sorted_keys_NoDup (keys : list Z) : NoDup (sorted_keys keys).
Proof.
  unfold sorted_keys.
  eapply Permutation_NoDup; [apply sort_by_perm | apply NoDup_nodup].
Qed.

(** One row of the users frame: the aggregate of the group of a key. *)
Definition agg_row (merged_df : list merged) (k : Z) : list user :=
  match filter (fun r => merged_user_id r =? k) merged_df with
  | [] => []
  | first :: rest =>
      [mkUser k (merged_ab_test_group first)
         (sum (map merged_conversion_count (first :: rest)))
         (nansum (map merged_revenue_eur (first :: rest)))]
  end.

Lemma agg_row_user_id (merged_df : list merged) (k : Z) :
  In k (map merged_user_id merged_df) ->
  map users_user_id (agg_row merged_df k) = [k].
Proof.
  intros Hk. unfold agg_row.
  destruct (filter _ merged_df) as [|first rest] eqn:E; [|reflexivity].
  exfalso. apply in_map_iff in Hk as (r & Hr & Hin).
  assert (H : In r (filter (fun r => merged_user_id r =? k) merged_df)).
  { apply filter_In. split; [exact Hin | now apply Z.eqb_eq]. }
  rewrite E in H. contradiction.
Qed.

Lemma groupby_user_ids (merged_df : list merged) :
  map users_user_id (groupby_user_id_agg merged_df)
  = sorted_keys (map merged_user_id merged_df).
Proof.
  unfold groupby_user_id_agg. fold (agg_row merged_df).
  assert (H : forall keys, (forall k, In k keys -> In k (map merged_user_id merged_df)) ->
                           map users_user_id (flat_map (agg_row merged_df) keys) = keys).
  { induction keys as [|k t IH]; intros Hin; [reflexivity|].
    cbn [flat_map]. rewrite map_app, agg_row_user_id by (apply Hin; now left).
    cbn [app]. f_equal. apply IH. intros k' Hk'. apply Hin. now right. }
  apply H. intros k. apply sorted_keys_In.
Qed.

Lemma groupby_row (merged_df : list merged) (row : user) :
  In row (groupby_user_id_agg merged_df) ->
  agg_row merged_df (users_user_id row) = [row].
Proof.
  unfold groupby_user_id_agg. fold (agg_row merged_df).
  rewrite in_flat_map. intros (k & _ & Hrow).
  unfold agg_row in *. destruct (filter _ merged_df) as [|first rest] eqn:E; [contradiction|].
  destruct Hrow as [<-|[]]. cbn [users_user_id]. now rewrite E.
Qed.

Lemma merged_user_ids (attributions_df : list attribution) (marks_df : list mark) (k : Z) :
  In k (map merged_user_id (flat_map (final_rows attributions_df) marks_df))
  <-> In k (map mark_user_id marks_df).
Proof.
  rewrite !in_map_iff. split.
  - intros (r & <- & Hr). apply in_flat_map in Hr as (m & Hm & Hr).
    exists m. split; [|exact Hm]. apply final_rows_user in Hr as [-> _]. reflexivity.
  - intros (m & <- & Hm).
    destruct (final_rows_nonempty attributions_df m) as (first & rest & E & _).
    exists first. split.
    + apply (final_rows_user attributions_df m). rewrite E. now left.
    + apply in_flat_map. exists m. split; [exact Hm|]. rewrite E. now left.
Qed.

(** The row of the users frame for a user, in terms of the marks of that
    user and the attributions that come strictly after each of them. *)
Lemma users_row (marks_df : frame) (attributions_df : list attribution) (row : user) :
  In row (_merge_into_users_df marks_df attributions_df) ->
  exists m ms,
    filter (fun m => mark_user_id m =? users_user_id row) (frame_rows marks_df) = m :: ms
    /\ users_ab_test_group row = mark_ab_test_group m
    /\ conversion_count row
       = sum (map (fun m => Z.of_nat (length (after_mark m
                     (attributions_of attributions_df (mark_user_id m))))) (m :: ms))
    /\ revenue_eur row
       = sum (map (fun m => sum (map attr_revenue_eur (after_mark m
                     (attributions_of attributions_df (mark_user_id m))))) (m :: ms)).
Proof.
  rewrite _merge_into_users_df_unfold. intros Hrow.
  apply groupby_row in Hrow. unfold agg_row in Hrow.
  rewrite merged_group in Hrow.
  destruct (filter _ (frame_rows marks_df)) as [|m ms]; [discriminate|].
  exists m, ms. split; [reflexivity|].
  destruct (flat_map (final_rows attributions_df) (m :: ms)) as [|f r] eqn:EG;
    [discriminate|].
  remember (f :: r) as G eqn:HG in Hrow.
  injection Hrow as <-. cbn [users_ab_test_group conversion_count revenue_eur].
  split.
  { destruct (final_rows_nonempty attributions_df m) as (first & rest & E & Hg).
    cbn [flat_map] in EG. rewrite E in EG. injection EG as <- _. exact Hg. }
  rewrite HG, <- EG. clear HG G EG f r.
  generalize (m :: ms). intros l. split.
  - induction l as [|x t IH]; [reflexivity|].
    cbn [flat_map map]. rewrite map_app, sum_app, IH, final_rows_conversion_count.
    reflexivity.
  - induction l as [|x t IH]; [reflexivity|].
    cbn [flat_map map]. rewrite map_app, nansum_app, IH, final_rows_revenue.
    reflexivity.
Qed.

Lemma users_user_ids (marks_df : frame) (attributions_df : list attribution) :
  map users_user_id (_merge_into_users_df marks_df attributions_df)
  = sorted_keys (map merged_user_id
                   (flat_map (final_rows attributions_df) (frame_rows marks_df))).
Proof. rewrite _merge_into_users_df_unfold. apply groupby_user_ids. Qed.

Lemma filter_head_find {A} (f : A -> bool) (l : list A) (x : A) (rest : list A) :
  filter f l = x :: rest -> find f l = Some x.
Proof.
  induction l as [|y t IH]; [discriminate|].
  cbn [filter find]. destruct (f y); [now intros [= ->] | exact IH].
Qed.

Lemma sum_zero {A} (f : A -> Z) (l : list A) :
  (forall x, In x l -> f x = 0) -> sum (map f l) = 0.
Proof.
  unfold sum. induction l as [|x t IH]; intros H; [reflexivity|].
  cbn [map fold_right]. rewrite IH.
  - rewrite (H x); [reflexivity | now left].
  - intros y Hy. apply H. now right.
Qed.

(** C8.  Merging yields exactly one row per distinct user_id of the marks
    frame (the user ids of the users frame have no repetition and are those
    of the marks).  A user that no attribution row names has
    conversion_count 0 and revenue_eur 0, and the ab_test_group of every
    user is the one of the user's (first) mark row. *)
Theorem merge_one_row_per_marked_user (marks_df : frame)
    (attributions_df : list attribution) :
  let users_df := _merge_into_users_df marks_df attributions_df in
  NoDup (map users_user_id users_df)
  /\ (forall u, In u (map users_user_id users_df)
                <-> In u (map mark_user_id (frame_rows marks_df)))
  /\ (forall row, In row users_df ->
        (forall a, In a attributions_df -> attr_user_id a <> users_user_id row) ->
        conversion_count row = 0 /\ revenue_eur row = 0)
  /\ (forall row, In row users_df ->
        exists m,
          find (fun m => mark_user_id m =? users_user_id row) (frame_rows marks_df) = Some m
          /\ users_ab_test_group row = mark_ab_test_group m).
Proof.
  intros users_df. subst users_df. repeat split.
  - rewrite users_user_ids. apply sorted_keys_NoDup.
  - rewrite users_user_ids, sorted_keys_In. apply merged_user_ids.
  - rewrite users_user_ids, sorted_keys_In. apply merged_user_ids.
  - rename H into Hrow, H0 into Hnone.
    apply users_row in Hrow as (m & ms & Hf & _ & -> & _).
    apply sum_zero. intros x Hx.
    assert (Hu : mark_user_id x = users_user_id row).
    { rewrite <- Hf in Hx. apply filter_In in Hx as [_ Hx]. now apply Z.eqb_eq. }
    unfold attributions_of. rewrite filter_none; [reflexivity|].
    intros a Ha. apply Z.eqb_neq. rewrite Hu. now apply Hnone.
  - rename H into Hrow, H0 into Hnone.
    apply users_row in Hrow as (m & ms & Hf & _ & _ & ->).
    apply sum_zero. intros x Hx.
    assert (Hu : mark_user_id x = users_user_id row).
    { rewrite <- Hf in Hx. apply filter_In in Hx as [_ Hx]. now apply Z.eqb_eq. }
    unfold attributions_of. rewrite filter_none; [reflexivity|].
    intros a Ha. apply Z.eqb_neq. rewrite Hu. now apply Hnone.
  - intros row Hrow. apply users_row in Hrow as (m & ms & Hf & Hg & _).
    exists m. split; [|exact Hg]. eapply filter_head_find, Hf.
Qed.

(** Two marked users, one of them without any attribution: that user is in
    the users frame, with no conversion and no revenue. *)
Lemma merge_one_row_per_marked_user_witness :
  let users_df :=
    _merge_into_users_df
      (without_event_type [mkMark 0 1 TEST 10 0; mkMark 0 2 CONTROL 10 0])
      [mkAttribution 5 1 3000000] in
  In 2 (map users_user_id users_df)
  /\ (forall row, In row users_df -> users_user_id row = 2 ->
        conversion_count row = 0 /\ revenue_eur row = 0).
Proof.
  intros users_df.
  destruct (merge_one_row_per_marked_user
              (without_event_type [mkMark 0 1 TEST 10 0; mkMark 0 2 CONTROL 10 0])
              [mkAttribution 5 1 3000000]) as (_ & Hids & Hzero & _).
  split.
  - apply Hids. right. left. reflexivity.
  - intros row Hrow Hu. apply (Hzero row Hrow).
    intros a [<-|[]]. rewrite Hu. discriminate.
Defined.

(** A user with one mark row: an attribution of that user is counted, and
    its revenue added, exactly when its timestamp is strictly later than the
    timestamp of the mark. *)
Lemma users_row_of_mark (marks_df : frame) (attributions_df : list attribution) (m : mark) :
  filter (fun x => mark_user_id x =? mark_user_id m) (frame_rows marks_df) = [m] ->
  exists row,
    In row (_merge_into_users_df marks_df attributions_df)
    /\ users_user_id row = mark_user_id m
    /\ users_ab_test_group row = mark_ab_test_group m
    /\ conversion_count row
       = Z.of_nat (length (after_mark m (attributions_of attributions_df (mark_user_id m))))
    /\ revenue_eur row
       = sum (map attr_revenue_eur
                (after_mark m (attributions_of attributions_df (mark_user_id m)))).
Proof.
  intros Hm.
  assert (Hin : In (mark_user_id m)
                  (map users_user_id (_merge_into_users_df marks_df attributions_df))).
  { rewrite users_user_ids, sorted_keys_In. apply merged_user_ids.
    apply in_map. eapply proj1. apply filter_In. rewrite Hm. now left. }
  apply in_map_iff in Hin as (row & Hu & Hrow).
  exists row. split; [exact Hrow|]. split; [exact Hu|].
  apply users_row in Hrow as (m' & ms & Hf & Hg & Hc & Hr).
  rewrite Hu, Hm in Hf. injection Hf as <- <-.
  split; [exact Hg|]. rewrite Hc, Hr. unfold sum. cbn [map fold_right].
  split; lia.
Qed.

(** C4: the code at the failing input.  A user is marked at time 10 and has
    one attribution of revenue 5000000 at the very same time 10: the
    attribution is not counted and its revenue not added, where the
    specification has it kept and counted.  The same attribution one time unit later is
    counted. *)
Theorem merge_drops_attribution_at_mark_time :
  _merge_into_users_df (without_event_type [mkMark 10 1 TEST 7 0])
    [mkAttribution 10 1 5000000]
  = [mkUser 1 TEST 0 0]
  /\ _merge_into_users_df (without_event_type [mkMark 10 1 TEST 7 0])
       [mkAttribution 11 1 5000000]
     = [mkUser 1 TEST 1 5000000].
Proof. split; reflexivity. Qed.

(** ** Bootstrap *)

(** The resample that [random_choice] hands out when the generator stands
    at position [pos], and the resamples of [n] calls in a row. *)
Definition draw (rng : N -> nat) (sample : list Z) (pos : N) : list Z :=
  map (fun j => nth (Nat.modulo (rng (pos + N.of_nat j)%N) (length sample)) sample 0)
    (seq 0 (length sample)).

Fixpoint resamples (rng : N -> nat) (sample : list Z) (pos : N) (n : nat)
  : list (list Z) :=
  match n with
  | O => []
  | S n => draw rng sample pos :: resamples rng sample (pos + N.of_nat (length sample)) n
  end.

Lemma random_choice_draw (rng : N -> nat) (sample : list Z) (s : state) :
  random_choice rng sample (length sample) s
  = Ok (draw rng sample (rng_pos s))
       (mkState (rng_pos s + N.of_nat (length sample)) (stdout s)).
Proof. destruct sample; reflexivity. Qed.

Lemma comprehension_resamples (rng : N -> nat) (sample : list Z) (n : nat) :
  forall s : state,
    comprehension n
      (bind (random_choice rng sample (length sample)) (fun resample => ret (mean resample))) s
    = Ok (map mean (resamples rng sample (rng_pos s) n))
         (mkState (rng_pos s + N.of_nat (n * length sample)) (stdout s)).
Proof.
  induction n as [|n IH]; intros s.
  - cbn [comprehension resamples map Nat.mul N.of_nat]. unfold ret.
    rewrite N.add_0_r. now destruct s.
  - cbn [comprehension]. unfold bind at 1 2. rewrite random_choice_draw.
    unfold ret at 1. unfold bind at 1. rewrite IH. unfold ret.
    cbn [rng_pos stdout resamples map Nat.mul]. do 2 f_equal. lia.
Qed.

Lemma resamples_length (rng : N -> nat) (sample : list Z) (n : nat) :
  forall pos, length (resamples rng sample pos n) = n.
Proof. induction n as [|n IH]; intros pos; cbn [resamples length]; auto. Qed.

Lemma draw_from_sample (rng : N -> nat) (sample : list Z) (pos : N) :
  length (draw rng sample pos) = length sample
  /\ (forall x, In x (draw rng sample pos) -> In x sample).
Proof.
  unfold draw. split.
  - now rewrite length_map, length_seq.
  - intros x Hx. apply in_map_iff in Hx as (j & <- & Hj).
    apply in_seq in Hj. apply nth_In. apply Nat.mod_upper_bound. lia.
Qed.

Lemma resamples_from_sample (rng : N -> nat) (sample : list Z) (n : nat) :
  forall pos r, In r (resamples rng sample pos n) ->
    length r = length sample /\ (forall x, In x r -> In x sample).
Proof.
  induction n as [|n IH]; intros pos r Hr; [contradiction|].
  destruct Hr as [<-|Hr]; [apply draw_from_sample | eapply IH, Hr].
Qed.

Section SortingOn.
Variable A : Type.
Variable ltb : A -> A -> bool.
Variable P : A -> Prop.

Hypothesis ltb_asym_on :
  forall x y, P x -> P y -> ltb x y = true -> ltb y x = false.
Hypothesis ltb_trans_neg_on :
  forall x y z, P x -> P y -> P z ->
    ltb y x = false -> ltb z y = false -> ltb z x = false.

Lemma insert_by_Forall (x : A) (l : list A) :
  P x -> Forall P l -> Forall P (insert_by ltb x l).
Proof.
  intros Hx Hl. eapply Permutation_Forall; [apply insert_by_perm|].
  now constructor.
Qed.

Lemma insert_by_sorted_on (x : A) (l : list A) :
  P x -> Forall P l ->
  StronglySorted (ordered ltb) l -> StronglySorted (ordered ltb) (insert_by ltb x l).
Proof.
  intros Px Pl. induction 1 as [|y t Ht IH Hy]; cbn [insert_by].
  - repeat constructor.
  - inversion Pl as [|? ? Py Pt]; subst.
    destruct (ltb y x) eqn:E.
    + constructor; [now apply IH|].
      rewrite Forall_forall in *. intros z Hz.
      apply (Permutation_in _ (Permutation_sym (insert_by_perm ltb x t))) in Hz.
      destruct Hz as [<-|Hz]; [now apply ltb_asym_on | now apply Hy].
    + constructor; [now constructor|].
      constructor; [exact E|].
      rewrite Forall_forall in *. intros z Hz.
      unfold ordered. apply ltb_trans_neg_on with y; auto. now apply Hy.
Qed.

Lemma sort_by_sorted_on (l : list A) :
  Forall P l -> StronglySorted (ordered ltb) (sort_by ltb l).
Proof.
  induction 1 as [|x t Hx Ht IH]; cbn [sort_by]; [constructor|].
  apply insert_by_sorted_on; [exact Hx | | exact IH].
  eapply Permutation_Forall; [apply sort_by_perm | exact Ht].
Qed.
End SortingOn.

(** *** Floats *)

Definition finite (x : fval) : Prop :=
  match x with Num _ => True | _ => False end.

Lemma fltb_num_false (a b : Q) : fltb (Num a) (Num b) = false <-> (b <= a)%Q.
Proof.
  cbn [fltb]. rewrite Qle_alt, <- (Qcompare_antisym a b).
  destruct (a ?= b)%Q; cbn [CompOpp]; split; congruence.
Qed.

Lemma fltb_num_true (a b : Q) : fltb (Num a) (Num b) = true <-> (a < b)%Q.
Proof.
  cbn [fltb]. rewrite Qlt_alt. destruct (a ?= b)%Q; split; congruence.
Qed.

Lemma fltb_asym_finite (x y : fval) :
  finite x -> finite y -> fltb x y = true -> fltb y x = false.
Proof.
  destruct x as [a| | |], y as [b| | |]; try contradiction. intros _ _.
  rewrite fltb_num_true, fltb_num_false. apply Qlt_le_weak.
Qed.

Lemma fltb_trans_neg_finite (x y z : fval) :
  finite x -> finite y -> finite z ->
  fltb y x = false -> fltb z y = false -> fltb z x = false.
Proof.
  destruct x as [a| | |], y as [b| | |], z as [c| | |]; try contradiction.
  intros _ _ _. rewrite !fltb_num_false. intros H1 H2. now apply Qle_trans with b.
Qed.

Lemma mean_finite (a : list Z) : a <> [] -> finite (mean a).
Proof.
  destruct a as [|x t]; [congruence|]. intros _.
  unfold mean, of_int. cbn [fdiv length].
  replace (inject_Z (Z.of_nat (S (length t))) ?= 0)%Q with Gt; [exact I|].
  symmetry. unfold Qcompare. cbn [inject_Z Qnum Qden]. rewrite Z.mul_1_r.
  apply Z.compare_gt_iff. lia.
Qed.

(** Ascending order on floats. *)
Definition fle (x y : fval) : Prop := fltb y x = false.

Lemma sorted_means_ascending (rng : N -> nat) (sample : list Z) (pos : N) (n : nat) :
  sample <> [] ->
  StronglySorted fle (sort_by fltb (map mean (resamples rng sample pos n))).
Proof.
  intros Hne. apply sort_by_sorted_on with (P := finite).
  - apply fltb_asym_finite.
  - apply fltb_trans_neg_finite.
  - apply Forall_forall. intros x Hx. apply in_map_iff in Hx as (r & <- & Hr).
    apply mean_finite. apply resamples_from_sample in Hr as [Hlen _].
    destruct r; [|discriminate]. destruct sample; [congruence | discriminate].
Qed.

(** *** List access *)

Lemma getitem_nonneg {A} (l : list A) (i : Z) :
  0 <= i ->
  getitem l i = match nth_error l (Z.to_nat i) with
                | Some x => Value x
                | None => Error IndexError
                end.
Proof.
  intros Hi. unfold getitem.
  replace (i <? 0) with false by lia.
  destruct ((0 <=? i) && (i <? Z.of_nat (length l))) eqn:E; [reflexivity|].
  assert (Hlen : (length l <= Z.to_nat i)%nat) by lia.
  apply nth_error_None in Hlen. now rewrite Hlen.
Qed.

Lemma getitem_nil {A} (i : Z) : getitem (@nil A) i = Error IndexError.
Proof.
  unfold getitem. cbn [length Z.of_nat].
  destruct (i <? 0) eqn:E;
    match goal with |- (if ?c then _ else _) = _ => replace c with false by lia end;
    reflexivity.
Qed.

(** *** The two quantile indices *)

Definition lower_index (self : Helpers) : Z :=
  int (((1 - confidence_level self) / 2) * inject_Z (bootstrap_size self + 1)).

Definition upper_index (self : Helpers) : Z :=
  int (((1 - confidence_level self) / 2 + confidence_level self)
       * inject_Z (bootstrap_size self + 1)).

Lemma int_nonneg (x : Q) : (0 <= x)%Q -> int x = Qfloor x /\ 0 <= Qfloor x.
Proof.
  intros Hx. split.
  - unfold int. destruct (x ?= 0)%Q eqn:E; try reflexivity.
    apply Qlt_alt in E. exfalso. now apply (Qlt_not_le x 0).
  - change 0 with (Qfloor 0). now apply Qfloor_resp_le.
Qed.

Lemma Qfloor_lt_iff (x : Q) (n : Z) : Qfloor x < n <-> (x < inject_Z n)%Q.
Proof.
  split; intros H.
  - apply Qlt_le_trans with (inject_Z (Qfloor x + 1)); [apply Qlt_floor|].
    rewrite <- Zle_Qle. lia.
  - rewrite Zlt_Qlt. apply Qle_lt_trans with x; [apply Qfloor_le | exact H].
Qed.

Lemma _bootstrap_mean_ci_unfold (rng : N -> nat) (self : Helpers) (sample : list Z)
    (s : state) :
  _bootstrap_mean_ci rng self sample s
  = let n := Z.to_nat (bootstrap_size self) in
    let bootstrapped_means :=
      sort_by fltb (map mean (resamples rng sample (rng_pos s) n)) in
    match getitem bootstrapped_means (lower_index self) with
    | Error e => Raise e
    | Value lower_bound =>
        match getitem bootstrapped_means (upper_index self) with
        | Error e => Raise e
        | Value upper_bound =>
            Ok (lower_bound, upper_bound)
               (mkState (rng_pos s + N.of_nat (n * length sample)) (stdout s))
        end
    end.
Proof.
  unfold _bootstrap_mean_ci. unfold bind at 1. rewrite comprehension_resamples.
  fold (lower_index self). fold (upper_index self). cbv zeta.
  unfold bind, lift, ret, raise.
  destruct (getitem _ (lower_index self)); [|reflexivity].
  destruct (getitem _ (upper_index self)); reflexivity.
Qed.

Lemma inject_Z_succ (b : Z) : (inject_Z (b + 1) == inject_Z b + 1)%Q.
Proof. rewrite inject_Z_plus. reflexivity. Qed.

Lemma indices_floor (self : Helpers) :
  (0 < confidence_level self)%Q -> (confidence_level self < 1)%Q ->
  0 <= bootstrap_size self + 1 ->
  (lower_index self
   = Qfloor (((1 - confidence_level self) / 2) * inject_Z (bootstrap_size self + 1))
   /\ 0 <= lower_index self)
  /\ (upper_index self
      = Qfloor (((1 - confidence_level self) / 2 + confidence_level self)
                * inject_Z (bootstrap_size self + 1))
      /\ 0 <= upper_index self).
Proof.
  intros H0 H1 Hb. unfold lower_index, upper_index.
  assert (HB : (0 <= inject_Z (bootstrap_size self + 1))%Q).
  { change 0%Q with (inject_Z 0). now rewrite <- Zle_Qle. }
  split.
  - destruct (int_nonneg (x := ((1 - confidence_level self) / 2)
                               * inject_Z (bootstrap_size self + 1))) as [-> Hn].
    + apply Qmult_le_0_compat; [unfold Qdiv; change (/ 2)%Q with (1 # 2)%Q; lra | exact HB].
    + split; [reflexivity | exact Hn].
  - destruct (int_nonneg (x := ((1 - confidence_level self) / 2 + confidence_level self)
                               * inject_Z (bootstrap_size self + 1))) as [-> Hn].
    + apply Qmult_le_0_compat; [unfold Qdiv; change (/ 2)%Q with (1 # 2)%Q; lra | exact HB].
    + split; [reflexivity | exact Hn].
Qed.

Lemma lower_index_lt (self : Helpers) :
  (0 < confidence_level self)%Q -> (confidence_level self < 1)%Q ->
  1 <= bootstrap_size self ->
  lower_index self < bootstrap_size self.
Proof.
  intros H0 H1 Hb.
  destruct (indices_floor self H0 H1) as [[-> _] _]; [lia|].
  apply Qfloor_lt_iff. rewrite inject_Z_succ.
  assert (HB : (1 <= inject_Z (bootstrap_size self))%Q).
  { change 1%Q with (inject_Z 1). now rewrite <- Zle_Qle. }
  set (B := inject_Z (bootstrap_size self)) in *.
  set (c := confidence_level self) in *.
  assert (Hp : (0 < c * (B + 1))%Q) by (apply Qmult_lt_0_compat; lra).
  unfold Qdiv. change (/ 2)%Q with (1 # 2)%Q. lra.
Qed.

Lemma upper_index_lt_iff (self : Helpers) :
  (0 < confidence_level self)%Q -> (confidence_level self < 1)%Q ->
  1 <= bootstrap_size self ->
  upper_index self < bootstrap_size self
  <-> (confidence_level self * inject_Z (bootstrap_size self + 1)
       < inject_Z (bootstrap_size self - 1))%Q.
Proof.
  intros H0 H1 Hb.
  destruct (indices_floor self H0 H1) as [_ [-> _]]; [lia|].
  rewrite Qfloor_lt_iff.
  unfold Z.sub. rewrite !inject_Z_plus.
  change (inject_Z 1) with 1%Q. change (inject_Z (- (1))) with (- (1))%Q.
  set (B := inject_Z (bootstrap_size self)) in *.
  set (c := confidence_level self) in *.
  unfold Qdiv. change (/ 2)%Q with (1 # 2)%Q.
  split; intros H; lra.
Qed.

Lemma sorted_means_length (rng : N -> nat) (sample : list Z) (pos : N) (n : nat) :
  length (sort_by fltb (map mean (resamples rng sample pos n))) = n.
Proof. now rewrite sort_by_length, length_map, resamples_length. Qed.

(** *** The indices in binary64

    The code evaluates the two index expressions in binary64; the bootstrap
    above reads the sorted means at their exact values.  At the default
    confidence level the two agree. *)

Definition indices_agree (self : Helpers) : bool :=
  match float_lower_index self, float_upper_index self with
  | Some lower, Some upper => (lower =? lower_index self) && (upper =? upper_index self)
  | _, _ => false
  end.

Lemma indices_agree_fields (self : Helpers) :
  indices_agree self
  = indices_agree (mkHelpers [] false (confidence_level self) (bootstrap_size self)).
Proof. reflexivity. Qed.

Lemma indices_agree_up_to_1000 :
  forallb (fun n => indices_agree
                      (mkHelpers [] false default_confidence_level (Z.of_nat n)))
    (seq 1 1000) = true.
Proof. vm_compute. reflexivity. Qed.

Lemma indices_agree_at_9999 :
  indices_agree (mkHelpers [] false default_confidence_level 9999) = true.
Proof. vm_compute. reflexivity. Qed.

Lemma float_indices_at_default_level (self : Helpers) :
  confidence_level self = default_confidence_level ->
  1 <= bootstrap_size self <= 1000 \/ bootstrap_size self = 9999 ->
  float_lower_index self = Some (lower_index self)
  /\ float_upper_index self = Some (upper_index self).
Proof.
  intros Hc Hn.
  assert (H : indices_agree self = true).
  { rewrite indices_agree_fields, Hc. destruct Hn as [Hn| ->].
    - pose proof indices_agree_up_to_1000 as Hall. rewrite forallb_forall in Hall.
      specialize (Hall (Z.to_nat (bootstrap_size self))).
      rewrite Z2Nat.id in Hall by lia. apply Hall. apply in_seq. lia.
    - apply indices_agree_at_9999. }
  unfold indices_agree in H.
  destruct (float_lower_index self) as [l|]; [|discriminate H].
  destruct (float_upper_index self) as [u|]; [|discriminate H].
  apply andb_true_iff in H as [Hl Hu].
  apply Z.eqb_eq in Hl, Hu. now subst.
Qed.

(** The default configuration: size 10000 becomes 9999, the indices are 250
    and 9750, in exact arithmetic and in binary64. *)
Example default_indices :
  let self := __init__ [] false default_confidence_level default_bootstrap_size in
  bootstrap_size self = 9999 /\ lower_index self = 250 /\ upper_index self = 9750
  /\ float_lower_index self = Some 250 /\ float_upper_index self = Some 9750.
Proof. cbv zeta. repeat split; vm_compute; reflexivity. Qed.

(** Away from the default level the binary64 value can fall on the other side
    of an integer than the exact value does: at level 0.3333333333333333 and
    size 2 the upper index is 2 in binary64 and 1 exactly; at level
    0.9310344827586207 and size 28 it is 27 in binary64 and 28 exactly. *)
Example float_indices_differ :
  float_upper_index (mkHelpers [] false (3333333333333333 # 10000000000000000) 2) = Some 2
  /\ upper_index (mkHelpers [] false (3333333333333333 # 10000000000000000) 2) = 1
  /\ float_upper_index (mkHelpers [] false (9310344827586207 # 10000000000000000) 28)
     = Some 27
  /\ upper_index (mkHelpers [] false (9310344827586207 # 10000000000000000) 28) = 28.
Proof. repeat split; vm_compute; reflexivity. Qed.





(** With both indices in range the bootstrap returns its two bounds. *)
Lemma _bootstrap_mean_ci_returns (rng : N -> nat) (self : Helpers)
    (sample : list Z) (s : state) :
  0 <= lower_index self < bootstrap_size self ->
  0 <= upper_index self < bootstrap_size self ->
  exists lower_bound upper_bound s',
    _bootstrap_mean_ci rng self sample s = Ok (lower_bound, upper_bound) s'.
Proof.
  intros Hl Hu. rewrite _bootstrap_mean_ci_unfold. cbv zeta.
  rewrite getitem_nonneg, getitem_nonneg by lia.
  set (means := sort_by fltb _).
  assert (Hlen : length means = Z.to_nat (bootstrap_size self))
    by apply sorted_means_length.
  destruct (nth_error means (Z.to_nat (lower_index self))) as [lo|] eqn:El.
  2:{ apply nth_error_None in El. lia. }
  destruct (nth_error means (Z.to_nat (upper_index self))) as [up|] eqn:Eu.
  2:{ apply nth_error_None in Eu. lia. }
  now eexists _, _, _.
Qed.

(** At the default level the upper index is in range from size 40 on. *)
Lemma default_level_in_range (self : Helpers) :
  confidence_level self = default_confidence_level ->
  (confidence_level self * inject_Z (bootstrap_size self + 1)
   < inject_Z (bootstrap_size self - 1))%Q
  <-> 40 <= bootstrap_size self.
Proof.
  intros Hc. rewrite Hc. unfold default_confidence_level, Qlt, Qmult.
  cbn [Qnum Qden inject_Z]. lia.
Qed.

(** C10 (as amended).  At the default confidence level 0.95 and for an
    effective bootstrap size n of at least 1, the lower index is a valid
    index of the sorted means; the upper index is a valid index exactly when
    n is at least 40.  From 40 on the bootstrap returns its two bounds, below
    40 the access at the upper index raises [IndexError].  For n up to 1000
    and for the default 9999 the two indices are the values of the index
    expressions in binary64. *)
Theorem quantile_indices_in_range_iff (rng : N -> nat) (self : Helpers)
    (sample : list Z) (s : state) :
  confidence_level self = default_confidence_level ->
  1 <= bootstrap_size self ->
  0 <= lower_index self < bootstrap_size self
  /\ 0 <= upper_index self
  /\ (upper_index self < bootstrap_size self <-> 40 <= bootstrap_size self)
  /\ (bootstrap_size self <= 1000 \/ bootstrap_size self = 9999 ->
      float_lower_index self = Some (lower_index self)
      /\ float_upper_index self = Some (upper_index self))
  /\ (40 <= bootstrap_size self ->
      exists lower_bound upper_bound s',
        _bootstrap_mean_ci rng self sample s = Ok (lower_bound, upper_bound) s')
  /\ (bootstrap_size self < 40 ->
      _bootstrap_mean_ci rng self sample s = Raise IndexError).
Proof.
  intros Hc Hn.
  assert (H0 : (0 < confidence_level self)%Q) by (rewrite Hc; reflexivity).
  assert (H1 : (confidence_level self < 1)%Q) by (rewrite Hc; reflexivity).
  destruct (indices_floor self H0 H1) as [[_ Hl] [_ Hu]]; [lia|].
  pose proof (lower_index_lt self H0 H1 Hn) as Hl'.
  pose proof (upper_index_lt_iff self H0 H1 Hn) as Hiff.
  rewrite (default_level_in_range self Hc) in Hiff.
  split; [lia|]. split; [exact Hu|]. split; [exact Hiff|].
  split; [intros Hle; apply float_indices_at_default_level; [exact Hc | lia]|].
  rewrite _bootstrap_mean_ci_unfold. cbv zeta.
  rewrite (getitem_nonneg _ Hl), (getitem_nonneg _ Hu).
  set (means := sort_by fltb _).
  assert (Hlen : length means = Z.to_nat (bootstrap_size self))
    by apply sorted_means_length.
  destruct (nth_error means (Z.to_nat (lower_index self))) as [lo|] eqn:El.
  2:{ apply nth_error_None in El. lia. }
  split.
  - intros Hin. apply Hiff in Hin.
    destruct (nth_error means (Z.to_nat (upper_index self))) as [up|] eqn:Eu.
    + now eexists _, _, _.
    + apply nth_error_None in Eu. lia.
  - intros Hout.
    destruct (nth_error means (Z.to_nat (upper_index self))) as [up|] eqn:Eu;
      [|reflexivity].
    exfalso.
    assert (Hlt : (Z.to_nat (upper_index self) < length means)%nat).
    { apply nth_error_Some. congruence. }
    lia.
Qed.

(** The default configuration: size 10000 becomes 9999, the indices are 250
    and 9750, both in range, and they are the binary64 ones. *)
Lemma quantile_indices_in_range_iff_witness :
  let self := __init__ [] false default_confidence_level default_bootstrap_size in
  0 <= lower_index self < 9999 /\ upper_index self < 9999
  /\ float_lower_index self = Some (lower_index self)
  /\ float_upper_index self = Some (upper_index self).
Proof.
  intros self.
  destruct (quantile_indices_in_range_iff example_rng self [] (mkState 0 []))
    as (Hlower & _ & Hupper & Hfloat & _); [reflexivity | discriminate |].
  split; [exact Hlower|]. split; [apply Hupper; discriminate|].
  apply Hfloat. right. reflexivity.
Defined.

(** C10 (as stated) fails.  A configured size of 10 at confidence level 0.95
    gives the effective size 9 and the upper index 9, in exact arithmetic and
    in binary64, which is no index of a list of 9 means: the bootstrap raises
    [IndexError]. *)
Lemma quantile_index_out_of_range :
  let self := __init__ [] false default_confidence_level 10 in
  (0 < confidence_level self)%Q /\ (confidence_level self < 1)%Q
  /\ bootstrap_size self = 9
  /\ upper_index self = 9
  /\ float_upper_index self = Some 9
  /\ ~ upper_index self < bootstrap_size self
  /\ _bootstrap_mean_ci example_rng self [0; 1; 1; 0; 3] (mkState 0 []) = Raise IndexError.
Proof.
  cbv zeta.
  split; [reflexivity|]. split; [reflexivity|]. split; [reflexivity|].
  split; [reflexivity|]. split; [vm_compute; reflexivity|].
  split; [intros H; vm_compute in H; discriminate H|].
  vm_compute. reflexivity.
Qed.

(** ** The report of a slice *)

Lemma get_group_Value (name : group) (users_df rows : list user) :
  get_group name users_df = Value rows ->
  rows <> []
  /\ rows = filter (fun u => group_eqb (users_ab_test_group u) name) users_df.
Proof.
  unfold get_group. destruct (filter _ users_df); [discriminate|].
  intros [= <-]. split; [discriminate | reflexivity].
Qed.

Lemma get_group_Error (name : group) (users_df : list user) (e : exn) :
  get_group name users_df = Error e ->
  e = KeyError
  /\ filter (fun u => group_eqb (users_ab_test_group u) name) users_df = [].
Proof.
  unfold get_group. destruct (filter _ users_df); [|discriminate].
  intros [= <-]. split; reflexivity.
Qed.

(** The users frame that [_uplift] builds from its two arguments. *)
Definition users_of (marks_and_spend_df : list event) (attributions_df : list attribution)
  : list user :=
  _merge_into_users_df
    (without_event_type (first_mark_per_user (marks_of marks_and_spend_df)))
    attributions_df.

Lemma _merge_into_users_df_rows (marks_df : frame) (attributions_df : list attribution) :
  _merge_into_users_df marks_df attributions_df
  = _merge_into_users_df (without_event_type (frame_rows marks_df)) attributions_df.
Proof. reflexivity. Qed.

Lemma length_eqb_0 {A} (l : list A) : l <> [] -> (Z.of_nat (length l) =? 0) = false.
Proof. destruct l; [congruence|reflexivity]. Qed.

(** Running [_uplift] up to the first group lookup, and then through the two
    lookups once their results are known. *)
Ltac uplift_start :=
  unfold _uplift;
  let out := fresh "out" in
  let Hout := fresh "Hout" in
  let Hrows := fresh "Hrows" in
  match goal with
  | |- context [_marked (with_event_type ?df)] =>
      destruct (_marked_events df) as (out & Hout & Hrows);
      unfold bind at 1; rewrite Hout; unfold lift at 1, ret at 1;
      rewrite _merge_into_users_df_rows, Hrows;
      match goal with
      | |- context [_merge_into_users_df _ ?attrs] => fold (users_of df attrs)
      end;
      cbv zeta; clear out Hout Hrows
  end.

Ltac uplift_groups Etu Htu Ecu Hcu :=
  uplift_start;
  unfold bind at 1; rewrite Etu; unfold lift at 1, ret at 1;
  rewrite length_eqb_0 by exact Htu;
  unfold bind at 1; rewrite Ecu; unfold lift at 1, ret at 1;
  rewrite length_eqb_0 by exact Hcu.

(** Every way in which [_uplift] can end: the [KeyError] of a group lookup,
    the exception of one of the two bootstraps, or the [NameError] of the
    first key of the output that reads [CONFIDENCE_LEVEL]. *)
Lemma _uplift_outcome (binom_ppf : fval -> Z -> fval -> fval) (rng : N -> nat)
    (self : Helpers) (df : list event) (attrs : list attribution) (name : string)
    (s : state) :
  match get_group TEST (users_of df attrs) with
  | Error _ => _uplift binom_ppf rng self df attrs name s = Raise KeyError
  | Value tu =>
      match get_group CONTROL (users_of df attrs) with
      | Error _ => _uplift binom_ppf rng self df attrs name s = Raise KeyError
      | Value cu =>
          match _bootstrap_mean_ci rng self (map conversion_count cu) s with
          | Raise e => _uplift binom_ppf rng self df attrs name s = Raise e
          | Ok _ s1 =>
              match _bootstrap_mean_ci rng self (map revenue_eur cu) s1 with
              | Raise e => _uplift binom_ppf rng self df attrs name s = Raise e
              | Ok _ _ => _uplift binom_ppf rng self df attrs name s = Raise NameError
              end
          end
      end
  end.
Proof.
  destruct (get_group TEST (users_of df attrs)) as [tu|e] eqn:Etu.
  2:{ apply get_group_Error in Etu as [-> Etu].
      uplift_start. unfold bind at 1. unfold get_group. rewrite Etu. reflexivity. }
  pose proof (proj1 (get_group_Value _ _ Etu)) as Htu.
  destruct (get_group CONTROL (users_of df attrs)) as [cu|e] eqn:Ecu.
  2:{ apply get_group_Error in Ecu as [-> Ecu'].
      uplift_start. unfold bind at 1. rewrite Etu. unfold lift at 1, ret at 1.
      rewrite length_eqb_0 by exact Htu.
      unfold bind at 1. unfold get_group. rewrite Ecu'. reflexivity. }
  pose proof (proj1 (get_group_Value _ _ Ecu)) as Hcu.
  destruct (_bootstrap_mean_ci rng self (map conversion_count cu) s)
    as [[l u] s1|e] eqn:B1.
  2:{ uplift_groups Etu Htu Ecu Hcu. unfold bind at 1. rewrite B1. reflexivity. }
  destruct (_bootstrap_mean_ci rng self (map revenue_eur cu) s1)
    as [[rl ru] s2|e] eqn:B2.
  2:{ uplift_groups Etu Htu Ecu Hcu. unfold bind at 1. rewrite B1.
      unfold bind at 1. rewrite B2. reflexivity. }
  uplift_groups Etu Htu Ecu Hcu. unfold bind at 1. rewrite B1.
  unfold bind at 1. rewrite B2. reflexivity.
Qed.

(** [_uplift] never returns: not a report, and not [None] either (a group
    that [get_group] returns has at least one row, so the two branches that
    log a warning are never taken). *)
Lemma _uplift_never_returns (binom_ppf : fval -> Z -> fval -> fval)
    (rng : N -> nat) (self : Helpers) (df : list event) (attrs : list attribution)
    (name : string) (s s' : state) (res : option report) :
  _uplift binom_ppf rng self df attrs name s <> Ok res s'.
Proof.
  intros H. pose proof (_uplift_outcome binom_ppf rng self df attrs name s) as Hout.
  destruct (get_group TEST (users_of df attrs)) as [tu|e]; [|congruence].
  destruct (get_group CONTROL (users_of df attrs)) as [cu|e]; [|congruence].
  destruct (_bootstrap_mean_ci rng self (map conversion_count cu) s)
    as [[l u] s1|e]; [|congruence].
  destruct (_bootstrap_mean_ci rng self (map revenue_eur cu) s1)
    as [[rl ru] s2|e]; congruence.
Qed.

(** A slice without test users, or without control users, makes [_uplift]
    raise [KeyError]. *)
Lemma _uplift_raises_without_group (binom_ppf : fval -> Z -> fval -> fval)
    (rng : N -> nat) (self : Helpers) (df : list event) (attrs : list attribution)
    (name : string) (s : state) (missing : group) :
  (forall u, In u (users_of df attrs) -> users_ab_test_group u <> missing) ->
  _uplift binom_ppf rng self df attrs name s = Raise KeyError.
Proof.
  intros Hmissing.
  assert (E : get_group missing (users_of df attrs) = Error KeyError).
  { unfold get_group. rewrite filter_none; [reflexivity|].
    intros u Hu. apply Hmissing in Hu.
    destruct (users_ab_test_group u), missing; try reflexivity; congruence. }
  pose proof (_uplift_outcome binom_ppf rng self df attrs name s) as Hout.
  destruct missing.
  - now rewrite E in Hout.
  - destruct (get_group TEST (users_of df attrs)); [|exact Hout].
    now rewrite E in Hout.
Qed.

(** A slice with users of both groups, and quantile indices in range: both
    bootstraps return and the output raises [NameError]. *)
Lemma _uplift_NameError (binom_ppf : fval -> Z -> fval -> fval) (rng : N -> nat)
    (self : Helpers) (df : list event) (attrs : list attribution) (name : string)
    (s : state) (tu cu : list user) :
  get_group TEST (users_of df attrs) = Value tu ->
  get_group CONTROL (users_of df attrs) = Value cu ->
  0 <= lower_index self < bootstrap_size self ->
  0 <= upper_index self < bootstrap_size self ->
  _uplift binom_ppf rng self df attrs name s = Raise NameError.
Proof.
  intros Etu Ecu Hl Hu.
  pose proof (_uplift_outcome binom_ppf rng self df attrs name s) as Hout.
  rewrite Etu, Ecu in Hout.
  destruct (_bootstrap_mean_ci_returns rng self (map conversion_count cu) s Hl Hu)
    as (l & u & s1 & B1). rewrite B1 in Hout.
  destruct (_bootstrap_mean_ci_returns rng self (map revenue_eur cu) s1 Hl Hu)
    as (rl & ru & s2 & B2). rewrite B2 in Hout.
  exact Hout.
Qed.

(** *** An example data set

    Users 1 and 3 are marked as test, user 2 as control; users 1 and 2 are
    marked by campaign 1, user 3 by campaign 2.  The test group spent
    2000000; user 2 converted once (revenue 1000000) and user 1 once
    (revenue 3000000), both after their marks.  The named group "EU" is
    campaign 2, which has marked no control user. *)

Definition example_marks_and_spend : list event :=
  [mark_event 0 1 TEST 1; mark_event 0 2 CONTROL 1; mark_event 0 3 TEST 2;
   mkEvent 3 1 TEST 1 2000000 "buying_conversion"].

Definition example_attributions : list attribution :=
  [mkAttribution 5 2 1000000; mkAttribution 6 1 3000000].

Definition example_helpers : Helpers :=
  __init__ [("EU"%string, [2])] false default_confidence_level 100.

Definition initial_state : state := mkState 0 [].

(** The indices of the example configuration: size 99, indices 2 and 97, in
    exact arithmetic and in binary64. *)
Example example_helpers_indices :
  bootstrap_size example_helpers = 99
  /\ lower_index example_helpers = 2 /\ upper_index example_helpers = 97
  /\ float_lower_index example_helpers = Some 2
  /\ float_upper_index example_helpers = Some 97.
Proof. repeat split; vm_compute; reflexivity. Qed.

(** C1: the code at failing inputs.  The slice of the named group "EU" has a
    test user and no control user: [_uplift] raises [KeyError] for it, where
    the specification has a warning, no column and no error.  A whole data
    set without test users makes [uplift_report] raise [KeyError] on its
    total slice.  The guard of [_old_uplift] on the slice of "EU" logs the
    warning and returns [None]. *)
Theorem uplift_report_raises_on_empty_group :
  _uplift binom_ppf_exact example_rng example_helpers
    (filter (fun e => isin (campaign_id e) [2]) example_marks_and_spend)
    example_attributions "EU" initial_state
  = Raise KeyError
  /\ uplift_report binom_ppf_exact example_rng
       (__init__ [] false default_confidence_level 100)
       [mark_event 0 2 CONTROL 1] example_attributions initial_state
     = Raise KeyError
  /\ _old_uplift_guard
       (filter (fun e => isin (campaign_id e) [2]) example_marks_and_spend)
       "EU" initial_state
     = Ok None
         (mkState 0 ["WARNING: No users marked as control for  EU skipping.. "%string]).
Proof.
  split; [|split].
  - vm_compute. reflexivity.
  - vm_compute. reflexivity.
  - vm_compute. reflexivity.
Qed.

(** *** Arithmetic of the means *)

Lemma inject_Z_compare_0 (n : Z) : (inject_Z n ?= 0)%Q = (n ?= 0).
Proof. unfold Qcompare. cbn [inject_Z Qnum Qden]. now rewrite Z.mul_1_r. Qed.

Lemma of_int_div (m n : Z) :
  n <> 0 -> (of_int m / of_int n)%F = Num (inject_Z m / inject_Z n).
Proof.
  intros Hn. unfold of_int. cbn [fdiv]. rewrite inject_Z_compare_0.
  destruct (n ?= 0) eqn:E; try reflexivity.
  apply Z.compare_eq in E. contradiction.
Qed.

Lemma length_neq_0 {A} (l : list A) : l <> [] -> Z.of_nat (length l) <> 0.
Proof. destruct l; [congruence | cbn [length]; lia]. Qed.

(** *** The output of a slice with both groups *)

(** C2: the code at a failing input.  On the whole example data set the
    test group has two users and one converter, the control group one user
    and one converter: the ratio is 2, the incremental converters estimate
    1 - 1 * 2 is negative and the ad spend 2 is positive, the case of the
    sentinel.  No field is reported: whatever the binomial quantile function
    and the random draws, [_uplift] raises [NameError] when it builds the
    output. *)
Theorem uplift_raises_before_cost_per_converter
    (binom_ppf : fval -> Z -> fval -> fval) (rng : N -> nat) (s : state) :
  get_group TEST (users_of example_marks_and_spend example_attributions)
  = Value [mkUser 1 TEST 1 3000000; mkUser 3 TEST 0 0]
  /\ get_group CONTROL (users_of example_marks_and_spend example_attributions)
     = Value [mkUser 2 CONTROL 1 1000000]
  /\ (_calculate_ad_spend example_marks_and_spend == 2)%Q
  /\ _uplift binom_ppf rng example_helpers example_marks_and_spend
       example_attributions "total" s
     = Raise NameError.
Proof.
  split; [reflexivity|]. split; [reflexivity|]. split; [reflexivity|].
  eapply _uplift_NameError; [reflexivity | reflexivity | |];
    vm_compute; split; congruence.
Qed.

(** C6: the code at a failing input.  One test user with one conversion,
    one control user without any: control_cvr is 0.  No report is produced,
    where the specification has a report with a CVR uplift estimate of 0:
    whatever the binomial quantile function and the random draws, [_uplift]
    raises [NameError] when it builds the output. *)
Theorem uplift_raises_at_zero_control_cvr
    (binom_ppf : fval -> Z -> fval -> fval) (rng : N -> nat) (s : state) :
  let marks_and_spend_df := [mark_event 0 1 TEST 1; mark_event 0 2 CONTROL 1] in
  let attributions_df := [mkAttribution 1 1 5000000] in
  get_group TEST (users_of marks_and_spend_df attributions_df)
  = Value [mkUser 1 TEST 1 5000000]
  /\ get_group CONTROL (users_of marks_and_spend_df attributions_df)
     = Value [mkUser 2 CONTROL 0 0]
  /\ _uplift binom_ppf rng (__init__ [] false default_confidence_level 100)
       marks_and_spend_df attributions_df "total" s
     = Raise NameError.
Proof.
  cbv zeta. split; [reflexivity|]. split; [reflexivity|].
  eapply _uplift_NameError; [reflexivity | reflexivity | |];
    vm_compute; split; congruence.
Qed.

(** *** The end-to-end scenario of the specification

    100 test users and 100 control users marked at time 0; 30 test users and
    10 control users each with one conversion of revenue 1000000 at time 1;
    the test group spent 500000000. *)






(** * Further properties of the helpers *)

(** ** Deduplication: what is kept *)

(** The (user, revenue) pair of a row as the mask compares it: through the
    64-bit floats of the shifted columns. *)
Definition attr_key (a : attribution) : Z * Z :=
  (float64 (attr_user_id a), float64 (attr_revenue_eur a)).

(** The rows that the mask keeps when the first row sees [fill] as the row
    before it. *)
Definition kept_from (max_timedelta : Z) (fill : option attribution)
    (rows : list attribution) : list attribution :=
  boolean_index rows
    (map (differs_from_last max_timedelta) (combine rows (shift_from fill rows))).

Lemma kept_from_cons (gap : Z) (fill : option attribution) (row : attribution)
    (rest : list attribution) :
  kept_from gap fill (row :: rest)
  = (if differs_from_last gap (row, fill) then [row] else [])
    ++ kept_from gap (Some row) rest.
Proof.
  unfold kept_from, boolean_index. cbn [shift_from combine map filter snd].
  destruct (differs_from_last gap (row, fill)); reflexivity.
Qed.

Lemma _drop_duplicates_in_attributions_kept (df : list attribution) (gap : Z) :
  _drop_duplicates_in_attributions df gap
  = kept_from gap None (sort_by user_revenue_ltb df).
Proof. reflexivity. Qed.

Lemma kept_from_In (gap : Z) (rows : list attribution) :
  forall fill row, In row (kept_from gap fill rows) -> In row rows.
Proof.
  induction rows as [|x t IH]; intros fill row H; [contradiction|].
  rewrite kept_from_cons in H. apply in_app_or in H as [H|H].
  - destruct (differs_from_last gap (x, fill)); [|contradiction].
    destruct H as [<-|[]]. now left.
  - right. eapply IH, H.
Qed.

Lemma kept_from_sorted (R : attribution -> attribution -> Prop) (gap : Z)
    (rows : list attribution) :
  StronglySorted R rows -> forall fill, StronglySorted R (kept_from gap fill rows).
Proof.
  induction 1 as [|x t Ht IH Hx]; intros fill; [constructor|].
  rewrite kept_from_cons.
  destruct (differs_from_last gap (x, fill)); cbn [app]; [|apply IH].
  constructor; [apply IH|].
  rewrite Forall_forall in *. intros y Hy. apply Hx. eapply kept_from_In, Hy.
Qed.

Lemma differs_from_last_same_key (gap : Z) (row last : attribution) :
  differs_from_last gap (row, Some last) = false -> attr_key row = attr_key last.
Proof.
  cbn [differs_from_last]. unfold attr_key. intros H.
  assert (float64 (attr_user_id row) = float64 (attr_user_id last)) by lia.
  assert (float64 (attr_revenue_eur row) = float64 (attr_revenue_eur last)) by lia.
  congruence.
Qed.

Lemma kept_from_key (gap : Z) (rows : list attribution) :
  forall fill a, In a rows ->
    (exists b, In b (kept_from gap fill rows) /\ attr_key b = attr_key a)
    \/ (exists last, fill = Some last /\ attr_key last = attr_key a).
Proof.
  induction rows as [|x t IH]; intros fill a Ha; [contradiction|].
  rewrite kept_from_cons.
  destruct (differs_from_last gap (x, fill)) eqn:E.
  - left. destruct Ha as [->|Ha].
    + exists a. split; [now left | reflexivity].
    + destruct (IH (Some x) a Ha) as [(b & Hb & Hk)|(last & [= <-] & Hk)].
      * exists b. split; [right; exact Hb | exact Hk].
      * exists x. split; [now left | exact Hk].
  - destruct fill as [last|]; [|discriminate E].
    apply differs_from_last_same_key in E.
    destruct Ha as [->|Ha].
    + right. exists last. split; [reflexivity | congruence].
    + destruct (IH (Some x) a Ha) as [(b & Hb & Hk)|(p & [= <-] & Hk)].
      * left. exists b. split; [exact Hb | exact Hk].
      * right. exists last. split; [reflexivity | congruence].
Qed.

(** X1.  Deduplication never removes a (user, revenue) pair altogether, as
    far as 64-bit floats tell pairs apart: for every row of the input, a row
    whose user_id and revenue_eur are the same as floats is in the output.
    When the user_id, revenue_eur and timestamp of every input row are
    integers of magnitude up to 2^53, that row has the same user and the same
    revenue. *)
Theorem drop_duplicates_keeps_every_key (df : list attribution) (max_timedelta : Z)
    (a : attribution) :
  In a df ->
  exists b,
    In b (_drop_duplicates_in_attributions df max_timedelta)
    /\ float64 (attr_user_id b) = float64 (attr_user_id a)
    /\ float64 (attr_revenue_eur b) = float64 (attr_revenue_eur a)
    /\ (Forall representable df ->
        attr_user_id b = attr_user_id a /\ attr_revenue_eur b = attr_revenue_eur a).
Proof.
  intros Ha. rewrite _drop_duplicates_in_attributions_kept.
  assert (Hs : In a (sort_by user_revenue_ltb df)) by now apply sort_by_In.
  destruct (kept_from_key max_timedelta _ None a Hs)
    as [(b & Hb & Hk)|(last & Hlast & _)]; [|discriminate Hlast].
  exists b. split; [exact Hb|]. unfold attr_key in Hk. injection Hk as Hu Hr.
  split; [exact Hu|]. split; [exact Hr|].
  intros Hrep. rewrite Forall_forall in Hrep.
  assert (Hbdf : In b df) by (apply kept_from_In in Hb; now apply sort_by_In in Hb).
  destruct (Hrep _ Hbdf) as (_ & Bu & Br). destruct (Hrep _ Ha) as (_ & Au & Ar).
  rewrite !float64_exact in Hu, Hr by assumption. split; assumption.
Qed.

Lemma drop_duplicates_keeps_every_key_witness :
  exists b,
    In b (_drop_duplicates_in_attributions
            [mkAttribution 0 1 5; mkAttribution 50 1 5; mkAttribution 100 1 5] 60)
    /\ attr_user_id b = 1 /\ attr_revenue_eur b = 5.
Proof.
  destruct (drop_duplicates_keeps_every_key
              [mkAttribution 0 1 5; mkAttribution 50 1 5; mkAttribution 100 1 5] 60
              (mkAttribution 100 1 5)) as (b & Hb & _ & _ & Hexact).
  - right. right. left. reflexivity.
  - exists b. split; [exact Hb|]. apply Hexact.
    repeat constructor; discriminate.
Defined.

(** X2.  The output of the deduplication is a selection of input rows, in
    ascending order of (user_id, revenue_eur). *)
Theorem drop_duplicates_selects_and_orders (df : list attribution) (max_timedelta : Z) :
  (forall row, In row (_drop_duplicates_in_attributions df max_timedelta) -> In row df)
  /\ StronglySorted user_revenue_le (_drop_duplicates_in_attributions df max_timedelta).
Proof.
  rewrite _drop_duplicates_in_attributions_kept. split.
  - intros row Hrow. apply kept_from_In in Hrow. now apply sort_by_In in Hrow.
  - apply kept_from_sorted.
    apply StronglySorted_impl with (R := ordered user_revenue_ltb).
    + apply ordered_user_revenue_le.
    + apply sort_by_sorted.
      * apply user_revenue_ltb_asym.
      * apply user_revenue_ltb_trans_neg.
Qed.

Lemma drop_duplicates_selects_and_orders_witness :
  In (mkAttribution 0 1 5) [mkAttribution 9 2 5; mkAttribution 0 1 5].
Proof.
  apply (proj1 (drop_duplicates_selects_and_orders
                  [mkAttribution 9 2 5; mkAttribution 0 1 5] 60)).
  left. reflexivity.
Defined.

Lemma kept_from_all (gap : Z) (rows : list attribution) :
  forall fill,
    NoDup (map attr_key rows) ->
    (forall last, fill = Some last -> ~ In (attr_key last) (map attr_key rows)) ->
    kept_from gap fill rows = rows.
Proof.
  induction rows as [|x t IH]; intros fill Hnd Hfill; [reflexivity|].
  rewrite kept_from_cons. cbn [map] in Hnd. inversion Hnd as [|? ? Hx Ht]; subst.
  assert (E : differs_from_last gap (x, fill) = true).
  { destruct (differs_from_last gap (x, fill)) eqn:E; [reflexivity|].
    destruct fill as [last|]; [|discriminate E].
    apply differs_from_last_same_key in E. exfalso.
    apply (Hfill last eq_refl). left. exact E. }
  rewrite E. cbn [app]. f_equal. apply IH; [exact Ht|].
  intros last [= <-]. exact Hx.
Qed.

(** X3.  When no two rows of the input agree on both user_id and
    revenue_eur as 64-bit floats, nothing is dropped: the output is the
    input, sorted. *)
Theorem drop_duplicates_without_equal_keys (df : list attribution) (max_timedelta : Z) :
  NoDup (map attr_key df) ->
  _drop_duplicates_in_attributions df max_timedelta = sort_by user_revenue_ltb df
  /\ Permutation df (_drop_duplicates_in_attributions df max_timedelta).
Proof.
  intros Hnd.
  assert (E : _drop_duplicates_in_attributions df max_timedelta
              = sort_by user_revenue_ltb df).
  { rewrite _drop_duplicates_in_attributions_kept. apply kept_from_all.
    - eapply Permutation_NoDup; [|exact Hnd].
      apply Permutation_map, sort_by_perm.
    - intros last H. discriminate H. }
  split; [exact E|]. rewrite E. apply sort_by_perm.
Qed.

Lemma drop_duplicates_without_equal_keys_witness :
  _drop_duplicates_in_attributions [mkAttribution 9 2 5; mkAttribution 0 1 5] 60
  = sort_by user_revenue_ltb [mkAttribution 9 2 5; mkAttribution 0 1 5].
Proof.
  apply (drop_duplicates_without_equal_keys [mkAttribution 9 2 5; mkAttribution 0 1 5] 60).
  repeat constructor; cbn; intuition discriminate.
Defined.

(** The first row of every run of rows whose user_id and revenue_eur are the
    same as 64-bit floats. *)
Fixpoint first_of_each_run (fill : option attribution) (rows : list attribution)
  : list attribution :=
  match rows with
  | [] => []
  | row :: rest =>
      (match fill with
       | None => [row]
       | Some last =>
           if (float64 (attr_user_id row) =? float64 (attr_user_id last))
              && (float64 (attr_revenue_eur row) =? float64 (attr_revenue_eur last))
           then [] else [row]
       end) ++ first_of_each_run (Some row) rest
  end.

Definition int32 (z : Z) : Prop := - 2 ^ 31 <= z < 2 ^ 31.

Lemma kept_from_loaded (rows : list attribution) :
  forall fill,
    (forall last, fill = Some last -> int32 (attr_ts last)) ->
    Forall (fun a => int32 (attr_ts a)) rows ->
    kept_from Timedelta_1_minute fill rows = first_of_each_run fill rows.
Proof.
  induction rows as [|x t IH]; intros fill Hfill Hrows; [reflexivity|].
  inversion Hrows as [|? ? Hx Ht]; subst.
  rewrite kept_from_cons. cbn [first_of_each_run].
  rewrite IH; [|intros last [= <-]; exact Hx | exact Ht]. f_equal.
  destruct fill as [last|]; [|reflexivity].
  specialize (Hfill last eq_refl). unfold int32 in *.
  cbn [differs_from_last]. unfold Timedelta_1_minute.
  rewrite (float64_exact (z := attr_ts last)) by (unfold exact_in_float64; lia).
  destruct (float64 (attr_user_id x) =? float64 (attr_user_id last)) eqn:Eu;
    destruct (float64 (attr_revenue_eur x) =? float64 (attr_revenue_eur last)) eqn:Er;
    cbn [negb orb andb]; try reflexivity.
  replace (60 * 10 ^ 9 <? attr_ts x - attr_ts last) with false by lia. reflexivity.
Qed.

(** X4.  On timestamps as the loader stores them (seconds in a 32-bit
    integer, which [pd.to_datetime] reads as nanoseconds) the deduplication
    of [load_attribution_data] does not depend on time at all: of every run
    of rows whose user_id and revenue_eur are the same as 64-bit floats it
    keeps the first row and drops all others.  User ids are 64-bit hashes:
    two users whose hashes round to the same float are one run. *)
Theorem deduplicate_loaded_ignores_time (df : list attribution) :
  Forall (fun a => int32 (attr_ts a)) df ->
  deduplicate_loaded true df
  = first_of_each_run None (sort_by user_revenue_ltb df).
Proof.
  intros Hdf. unfold deduplicate_loaded.
  rewrite _drop_duplicates_in_attributions_kept. apply kept_from_loaded.
  - intros last H. discriminate H.
  - eapply Permutation_Forall; [apply sort_by_perm | exact Hdf].
Qed.

(** One user a day apart: one row.  Two users whose ids are 2^60 and
    2^60 + 1, at one time: one row as well. *)
Lemma deduplicate_loaded_ignores_time_witness :
  deduplicate_loaded true [mkAttribution 0 1 5; mkAttribution 86400 1 5]
  = [mkAttribution 0 1 5]
  /\ deduplicate_loaded true [mkAttribution 0 (2 ^ 60) 5; mkAttribution 0 (2 ^ 60 + 1) 5]
     = [mkAttribution 0 (2 ^ 60) 5].
Proof.
  split.
  - rewrite (@deduplicate_loaded_ignores_time
               [mkAttribution 0 1 5; mkAttribution 86400 1 5]); [reflexivity|].
    repeat constructor; cbn; discriminate.
  - rewrite (@deduplicate_loaded_ignores_time
               [mkAttribution 0 (2 ^ 60) 5; mkAttribution 0 (2 ^ 60 + 1) 5]);
      [reflexivity|].
    repeat constructor; cbn; discriminate.
Defined.

(** ** The bootstrap interval *)

Lemma sorted_nth_error {A} (R : A -> A -> Prop) (l : list A) :
  StronglySorted R l ->
  forall i j a b, (i < j)%nat -> nth_error l i = Some a -> nth_error l j = Some b ->
    R a b.
Proof.
  induction 1 as [|x t Ht IH Hx]; intros i j a b Hij Ha Hb.
  - destruct i; discriminate.
  - destruct j as [|j]; [lia|]. cbn [nth_error] in Hb.
    destruct i as [|i].
    + injection Ha as <-. rewrite Forall_forall in Hx. apply Hx.
      eapply nth_error_In, Hb.
    + cbn [nth_error] in Ha. apply (IH i j); [lia | exact Ha | exact Hb].
Qed.

Lemma getitem_Value_nth {A} (l : list A) (i : Z) (x : A) :
  0 <= i -> getitem l i = Value x -> nth_error l (Z.to_nat i) = Some x.
Proof.
  intros Hi H. rewrite getitem_nonneg in H by exact Hi.
  destruct (nth_error l (Z.to_nat i)); [now injection H as -> | discriminate].
Qed.

(** What a returned pair of bounds is: two entries of the sorted means. *)
Lemma _bootstrap_mean_ci_Ok (rng : N -> nat) (self : Helpers) (sample : list Z)
    (s s' : state) (lo up : fval) :
  (0 < confidence_level self)%Q -> (confidence_level self < 1)%Q ->
  _bootstrap_mean_ci rng self sample s = Ok (lo, up) s' ->
  let means :=
    sort_by fltb (map mean (resamples rng sample (rng_pos s)
                              (Z.to_nat (bootstrap_size self)))) in
  1 <= bootstrap_size self
  /\ nth_error means (Z.to_nat (lower_index self)) = Some lo
  /\ nth_error means (Z.to_nat (upper_index self)) = Some up
  /\ 0 <= lower_index self <= upper_index self
  /\ s' = mkState (rng_pos s
                   + N.of_nat (Z.to_nat (bootstrap_size self) * length sample))
            (stdout s).
Proof.
  intros H0 H1 H means. rewrite _bootstrap_mean_ci_unfold in H. cbv zeta in H.
  fold means in H.
  assert (Hn : 1 <= bootstrap_size self).
  { destruct (Z_le_gt_dec 1 (bootstrap_size self)) as [Hn|Hn]; [exact Hn|].
    exfalso. assert (E : means = []).
    { subst means. replace (Z.to_nat (bootstrap_size self)) with 0%nat by lia.
      reflexivity. }
    rewrite E, getitem_nil in H. discriminate H. }
  destruct (indices_floor self H0 H1) as [[El Hl] [Eu Hu]]; [lia|].
  destruct (getitem means (lower_index self)) as [lo'|e] eqn:Gl; [|discriminate H].
  destruct (getitem means (upper_index self)) as [up'|e] eqn:Gu; [|discriminate H].
  injection H as -> -> <-.
  split; [exact Hn|].
  split; [now apply getitem_Value_nth|]. split; [now apply getitem_Value_nth|].
  split; [|reflexivity]. split; [exact Hl|].
  rewrite El, Eu. apply Qfloor_resp_le.
  assert (HB : (0 <= inject_Z (bootstrap_size self + 1))%Q).
  { change 0%Q with (inject_Z 0). rewrite <- Zle_Qle. lia. }
  apply Qmult_le_compat_r; [|exact HB].
  unfold Qdiv. change (/ 2)%Q with (1 # 2)%Q. lra.
Qed.

Lemma fle_refl (x : fval) : fle x x.
Proof.
  unfold fle. destruct x as [q| | |]; try reflexivity.
  apply fltb_num_false. apply Qle_refl.
Qed.

(** For a non-empty sample the two bounds that the bootstrap returns are
    finite and in order. *)
Lemma _bootstrap_mean_ci_ordered (rng : N -> nat) (self : Helpers) (sample : list Z)
    (s s' : state) (lower_bound upper_bound : fval) :
  (0 < confidence_level self)%Q -> (confidence_level self < 1)%Q ->
  sample <> [] ->
  _bootstrap_mean_ci rng self sample s = Ok (lower_bound, upper_bound) s' ->
  exists lo up : Q,
    lower_bound = Num lo /\ upper_bound = Num up /\ (lo <= up)%Q.
Proof.
  intros H0 H1 Hne H.
  destruct (_bootstrap_mean_ci_Ok rng self sample s H0 H1 H)
    as (_ & Hlo & Hup & [Hl Hlu] & _).
  pose proof (sorted_means_ascending rng (rng_pos s) (Z.to_nat (bootstrap_size self)) Hne)
    as Hsorted.
  assert (Hfin : forall x i,
             nth_error (sort_by fltb (map mean (resamples rng sample (rng_pos s)
               (Z.to_nat (bootstrap_size self))))) i = Some x -> finite x).
  { intros x i Hx. apply nth_error_In in Hx. apply sort_by_In in Hx.
    apply in_map_iff in Hx as (r & <- & Hr). apply mean_finite.
    apply resamples_from_sample in Hr as [Hlen _].
    destruct r; [|discriminate]. destruct sample; [congruence | discriminate]. }
  pose proof (Hfin _ _ Hlo) as Flo. pose proof (Hfin _ _ Hup) as Fup.
  destruct lower_bound as [lo| | |]; try contradiction.
  destruct upper_bound as [up| | |]; try contradiction.
  exists lo, up. split; [reflexivity|]. split; [reflexivity|].
  apply fltb_num_false.
  destruct (Z.eq_dec (lower_index self) (upper_index self)) as [E|E].
  - rewrite E, Hup in Hlo. injection Hlo as ->. apply fle_refl.
  - apply (sorted_nth_error Hsorted) with
      (i := Z.to_nat (lower_index self)) (j := Z.to_nat (upper_index self));
      [lia | exact Hlo | exact Hup].
Qed.

Lemma example_bootstrap :
  { bs : fval * fval * state |
    _bootstrap_mean_ci example_rng (__init__ [] false default_confidence_level 100)
      [0; 1; 1; 0; 3] initial_state
    = Ok (fst (fst bs), snd (fst bs)) (snd bs) }.
Proof. eexists (_, _, _). vm_compute. reflexivity. Defined.

Lemma sum_bounds (a b : Z) (l : list Z) :
  (forall x, In x l -> a <= x <= b) ->
  a * Z.of_nat (length l) <= sum l <= b * Z.of_nat (length l).
Proof.
  unfold sum. induction l as [|x t IH]; intros H; [cbn; lia|].
  cbn [fold_right length].
  assert (Hx : a <= x <= b) by (apply H; now left).
  assert (Ht : a * Z.of_nat (length t) <= fold_right Z.add 0 t <= b * Z.of_nat (length t)).
  { apply IH. intros y Hy. apply H. now right. }
  lia.
Qed.

Lemma mean_bounds (a b : Z) (l : list Z) :
  l <> [] ->
  (forall x, In x l -> a <= x <= b) ->
  exists q, mean l = Num q /\ (inject_Z a <= q <= inject_Z b)%Q.
Proof.
  intros Hne H. unfold mean. rewrite of_int_div by now apply length_neq_0.
  eexists. split; [reflexivity|].
  assert (Hn : (0 < inject_Z (Z.of_nat (length l)))%Q).
  { change 0%Q with (inject_Z 0). rewrite <- Zlt_Qlt.
    destruct l; [congruence | cbn [length]; lia]. }
  pose proof H as Hs. apply sum_bounds in Hs. destruct Hs as [Hlo Hhi]. split.
  - apply Qle_shift_div_l; [exact Hn|].
    rewrite <- inject_Z_mult, <- Zle_Qle. exact Hlo.
  - apply Qle_shift_div_r; [exact Hn|].
    rewrite <- inject_Z_mult, <- Zle_Qle. exact Hhi.
Qed.

(** The bounds of the bootstrap lie within the range of the sample. *)
Lemma _bootstrap_mean_ci_within (rng : N -> nat) (self : Helpers)
    (sample : list Z) (s s' : state) (lower_bound upper_bound : fval) (a b : Z) :
  (0 < confidence_level self)%Q -> (confidence_level self < 1)%Q ->
  sample <> [] ->
  (forall x, In x sample -> a <= x <= b) ->
  _bootstrap_mean_ci rng self sample s = Ok (lower_bound, upper_bound) s' ->
  exists lo up : Q,
    lower_bound = Num lo /\ upper_bound = Num up
    /\ (inject_Z a <= lo <= inject_Z b)%Q /\ (inject_Z a <= up <= inject_Z b)%Q.
Proof.
  intros H0 H1 Hne Hrange H.
  destruct (_bootstrap_mean_ci_Ok rng self sample s H0 H1 H)
    as (_ & Hlo & Hup & _ & _).
  assert (Hin : forall x i,
             nth_error (sort_by fltb (map mean (resamples rng sample (rng_pos s)
               (Z.to_nat (bootstrap_size self))))) i = Some x ->
             exists q, x = Num q /\ (inject_Z a <= q <= inject_Z b)%Q).
  { intros x i Hx. apply nth_error_In in Hx. apply sort_by_In in Hx.
    apply in_map_iff in Hx as (r & <- & Hr).
    apply resamples_from_sample in Hr as [Hlen Hsub].
    apply mean_bounds.
    - destruct r; [|discriminate]. destruct sample; [congruence | discriminate].
    - intros y Hy. apply Hrange, Hsub, Hy. }
  destruct (Hin _ _ Hlo) as (lo & -> & Hlo').
  destruct (Hin _ _ Hup) as (up & -> & Hup').
  now exists lo, up.
Qed.

(** X5.  For a non-empty sample and a confidence level strictly between 0
    and 1, the two bounds that the bootstrap returns are finite numbers, the
    lower bound is not above the upper bound, and both lie within the range
    of the sample: when every element of the sample is between [a] and [b],
    so are the bounds.  In particular a sample of equal values (a control
    group without any conversion, say) gives that value for both bounds. *)
Theorem bootstrap_bounds_ordered_within_range (rng : N -> nat) (self : Helpers)
    (sample : list Z) (s s' : state) (lower_bound upper_bound : fval) (a b : Z) :
  (0 < confidence_level self)%Q -> (confidence_level self < 1)%Q ->
  sample <> [] ->
  (forall x, In x sample -> a <= x <= b) ->
  _bootstrap_mean_ci rng self sample s = Ok (lower_bound, upper_bound) s' ->
  exists lo up : Q,
    lower_bound = Num lo /\ upper_bound = Num up
    /\ (inject_Z a <= lo)%Q /\ (lo <= up)%Q /\ (up <= inject_Z b)%Q.
Proof.
  intros H0 H1 Hne Hrange H.
  destruct (@_bootstrap_mean_ci_ordered rng self sample s s' lower_bound upper_bound
              H0 H1 Hne H) as (lo & up & El & Eu & Hord).
  destruct (@_bootstrap_mean_ci_within rng self sample s s' lower_bound upper_bound
              a b H0 H1 Hne Hrange H) as (lo' & up' & El' & Eu' & [Hlo _] & [_ Hup]).
  rewrite El in El'. rewrite Eu in Eu'.
  injection El' as <-. injection Eu' as <-.
  exists lo, up. auto.
Qed.

Lemma bootstrap_bounds_ordered_within_range_witness :
  exists lo up : Q,
    fst (fst (proj1_sig example_bootstrap)) = Num lo
    /\ snd (fst (proj1_sig example_bootstrap)) = Num up
    /\ (inject_Z 0 <= lo)%Q /\ (lo <= up)%Q /\ (up <= inject_Z 3)%Q.
Proof.
  eapply bootstrap_bounds_ordered_within_range;
    [| | | |exact (proj2_sig example_bootstrap)];
    [reflexivity | reflexivity | discriminate |].
  intros x Hx. cbn in Hx. lia.
Defined.

Lemma _bootstrap_mean_ci_raises (rng : N -> nat) (self : Helpers) (sample : list Z)
    (s : state) :
  0 <= lower_index self -> 0 <= upper_index self ->
  bootstrap_size self <= upper_index self ->
  _bootstrap_mean_ci rng self sample s = Raise IndexError.
Proof.
  intros Hl Hu Hout. rewrite _bootstrap_mean_ci_unfold. cbv zeta.
  rewrite getitem_nonneg, getitem_nonneg by lia.
  set (means := sort_by fltb _).
  assert (Hlen : length means = Z.to_nat (bootstrap_size self))
    by apply sorted_means_length.
  assert (Eu : nth_error means (Z.to_nat (upper_index self)) = None).
  { apply nth_error_None. lia. }
  rewrite Eu. now destruct (nth_error means (Z.to_nat (lower_index self))).
Qed.

(** X6.  At the default confidence level 0.95 the bootstrap needs an
    effective size of at least 40: for an effective size n >= 1 it returns
    its bounds when 40 <= n and raises [IndexError] when n < 40, whatever
    the sample and the draws. *)
Theorem bootstrap_minimum_size_at_default_level (rng : N -> nat) (self : Helpers)
    (sample : list Z) (s : state) :
  confidence_level self = default_confidence_level ->
  1 <= bootstrap_size self ->
  (40 <= bootstrap_size self ->
   exists lower_bound upper_bound s',
     _bootstrap_mean_ci rng self sample s = Ok (lower_bound, upper_bound) s')
  /\ (bootstrap_size self < 40 ->
      _bootstrap_mean_ci rng self sample s = Raise IndexError).
Proof.
  intros Hc Hn.
  assert (H0 : (0 < confidence_level self)%Q) by (rewrite Hc; reflexivity).
  assert (H1 : (confidence_level self < 1)%Q) by (rewrite Hc; reflexivity).
  destruct (indices_floor self H0 H1) as [[_ Hl] [_ Hu]]; [lia|].
  pose proof (lower_index_lt self H0 H1 Hn) as Hl'.
  pose proof (upper_index_lt_iff self H0 H1 Hn) as Hiff.
  assert (Hrange : (confidence_level self * inject_Z (bootstrap_size self + 1)
                    < inject_Z (bootstrap_size self - 1))%Q
                   <-> 40 <= bootstrap_size self).
  { rewrite Hc. unfold default_confidence_level, Qlt, Qmult.
    cbn [Qnum Qden inject_Z]. lia. }
  split.
  - intros H40. apply _bootstrap_mean_ci_returns; [lia|].
    split; [exact Hu|]. apply Hiff, Hrange, H40.
  - intros H39. apply _bootstrap_mean_ci_raises; [exact Hl | exact Hu|].
    destruct (Z_lt_le_dec (upper_index self) (bootstrap_size self)) as [Hlt|Hge];
      [|exact Hge].
    apply Hiff, Hrange in Hlt. lia.
Qed.

Lemma bootstrap_minimum_size_at_default_level_witness :
  _bootstrap_mean_ci example_rng (__init__ [] false default_confidence_level 39)
    [0; 1; 1; 0; 3] initial_state
  = Raise IndexError.
Proof.
  apply bootstrap_minimum_size_at_default_level.
  - reflexivity.
  - discriminate.
  - reflexivity.
Defined.

(** X7.  The effective bootstrap size that [__init__] stores is never a
    multiple of 10, and storing it again changes nothing: an object
    configured with the effective size of another has the same effective
    size. *)
Theorem init_bootstrap_size_never_round (groups : list (string * list Z))
    (per_campaign_results : bool) (level : Q) (configured : Z) :
  let effective :=
    bootstrap_size (__init__ groups per_campaign_results level configured) in
  effective mod 10 <> 0
  /\ bootstrap_size (__init__ groups per_campaign_results level effective) = effective.
Proof.
  cbv zeta. cbn [__init__ bootstrap_size].
  destruct (configured mod 10 =? 0) eqn:E.
  - apply Z.eqb_eq in E.
    assert (H9 : (configured - 1) mod 10 <> 0).
    { pose proof (Z.div_mod configured 10) as Hc.
      pose proof (Z.div_mod (configured - 1) 10) as Hd.
      pose proof (Z.mod_pos_bound (configured - 1) 10). lia. }
    split; [exact H9|]. apply Z.eqb_neq in H9. now rewrite H9.
  - split; [now apply Z.eqb_neq|]. now rewrite E.
Qed.

(** ** Merging: counting rule, order, unmarked users *)

Lemma filter_unique_mark (rows : list mark) (m : mark) :
  NoDup (map mark_user_id rows) -> In m rows ->
  filter (fun x => mark_user_id x =? mark_user_id m) rows = [m].
Proof.
  induction rows as [|x t IH]; intros Hnd Hin; [contradiction|].
  cbn [map] in Hnd. inversion Hnd as [|? ? Hx Ht]; subst. cbn [filter].
  destruct Hin as [->|Hin].
  - rewrite Z.eqb_refl. f_equal. apply filter_none.
    intros y Hy. apply Z.eqb_neq. intros E. apply Hx. rewrite <- E.
    now apply in_map.
  - assert (Hne : mark_user_id x <> mark_user_id m).
    { intros E. apply Hx. rewrite E. now apply in_map. }
    apply Z.eqb_neq in Hne. rewrite Hne. now apply IH.
Qed.

Lemma after_mark_filter (attributions_df : list attribution) (m : mark) :
  after_mark m (attributions_of attributions_df (mark_user_id m))
  = filter (fun a => (attr_user_id a =? mark_user_id m) && (mark_ts m <? attr_ts a))
      attributions_df.
Proof.
  unfold after_mark, attributions_of.
  induction attributions_df as [|a t IH]; [reflexivity|].
  cbn [filter]. destruct (attr_user_id a =? mark_user_id m); cbn [filter andb].
  - destruct (mark_ts m <? attr_ts a); rewrite IH; reflexivity.
  - exact IH.
Qed.

(** X8.  On a marks frame with one row per user, every marked user gets the
    group of the mark, as conversion_count the number of the user's
    attribution rows whose timestamp is strictly later than the mark's, and
    as revenue_eur the sum of the revenue of exactly those rows: an
    attribution at or before the mark's timestamp adds nothing. *)
Theorem merge_counts_strictly_later (marks_df : list mark)
    (attributions_df : list attribution) (m : mark) :
  NoDup (map mark_user_id marks_df) ->
  In m marks_df ->
  exists row,
    In row (_merge_into_users_df (without_event_type marks_df) attributions_df)
    /\ users_user_id row = mark_user_id m
    /\ users_ab_test_group row = mark_ab_test_group m
    /\ conversion_count row
       = Z.of_nat (length (filter (fun a => (attr_user_id a =? mark_user_id m)
                                            && (mark_ts m <? attr_ts a))
                             attributions_df))
    /\ revenue_eur row
       = sum (map attr_revenue_eur
                (filter (fun a => (attr_user_id a =? mark_user_id m)
                                  && (mark_ts m <? attr_ts a))
                   attributions_df)).
Proof.
  intros Hnd Hin.
  destruct (@users_row_of_mark (without_event_type marks_df) attributions_df m)
    as (row & Hrow & Hu & Hg & Hc & Hr).
  { cbn [frame_rows]. now apply filter_unique_mark. }
  exists row. split; [exact Hrow|]. split; [exact Hu|]. split; [exact Hg|].
  pose proof (after_mark_filter attributions_df m) as E.
  rewrite <- E. split; assumption.
Qed.

Lemma merge_counts_strictly_later_witness :
  exists row,
    In row (_merge_into_users_df (without_event_type [mkMark 10 1 TEST 7 0])
              [mkAttribution 10 1 4; mkAttribution 11 1 5; mkAttribution 12 2 6])
    /\ users_user_id row = 1
    /\ users_ab_test_group row = TEST
    /\ conversion_count row = 1
    /\ revenue_eur row = 5.
Proof.
  apply (@merge_counts_strictly_later [mkMark 10 1 TEST 7 0]
           [mkAttribution 10 1 4; mkAttribution 11 1 5; mkAttribution 12 2 6]
           (mkMark 10 1 TEST 7 0)).
  - repeat constructor. intros [].
  - left. reflexivity.
Defined.

Lemma Z_ltb_asym (x y : Z) : (x <? y) = true -> (y <? x) = false.
Proof. lia. Qed.

Lemma Z_ltb_trans_neg (x y z : Z) :
  (y <? x) = false -> (z <? y) = false -> (z <? x) = false.
Proof. lia. Qed.

Lemma NoDup_sorted_strict (l : list Z) :
  NoDup l -> StronglySorted (ordered Z.ltb) l -> StronglySorted Z.lt l.
Proof.
  intros Hnd. induction 1 as [|x t Ht IH Hx]; [constructor|].
  inversion Hnd as [|? ? Hnx Hndt]; subst.
  constructor; [now apply IH|].
  rewrite Forall_forall in *. intros y Hy.
  specialize (Hx y Hy). unfold ordered in Hx.
  assert (x <> y) by (intros ->; contradiction). lia.
Qed.

(** X9.  The users frame is in strictly ascending order of user_id,
    whatever the order of the marks and of the attributions. *)
Theorem users_frame_in_ascending_user_order (marks_df : frame)
    (attributions_df : list attribution) :
  StronglySorted Z.lt
    (map users_user_id (_merge_into_users_df marks_df attributions_df)).
Proof.
  rewrite users_user_ids. apply NoDup_sorted_strict.
  - apply sorted_keys_NoDup.
  - unfold sorted_keys. apply sort_by_sorted.
    + apply Z_ltb_asym.
    + apply Z_ltb_trans_neg.
Qed.

(** *** [Helpers._filter_by_user_ids]

    The frame that the loader returns for a missing file is
    [pd.DataFrame()], which has no columns at all. *)

Inductive attribution_frame : Type :=
| no_columns
| attribution_rows (rows : list attribution).

Definition _filter_by_user_ids (df : attribution_frame) (user_ids : list Z)
  : attribution_frame :=
  match df with
  | attribution_rows rows =>
      attribution_rows (filter (fun a => isin (attr_user_id a) user_ids) rows)
  | no_columns => df
  end.

Lemma isin_In (x : Z) (values : list Z) : isin x values = true <-> In x values.
Proof. apply existsb_eqb_In. Qed.

Lemma merge_left_ext (marks_df : list mark) (a b : list attribution) :
  (forall m, In m marks_df ->
     filter (fun x => attr_user_id x =? mark_user_id m) a
     = filter (fun x => attr_user_id x =? mark_user_id m) b) ->
  merge_left marks_df a = merge_left marks_df b.
Proof.
  intros H. unfold merge_left.
  induction marks_df as [|m t IH]; [reflexivity|].
  cbn [flat_map]. rewrite (H m (or_introl eq_refl)). f_equal.
  apply IH. intros m' Hm'. apply H. now right.
Qed.

Lemma filter_filter_implied {A} (f g : A -> bool) (l : list A) :
  (forall x, f x = true -> g x = true) ->
  filter f (filter g l) = filter f l.
Proof.
  intros H. induction l as [|x t IH]; [reflexivity|].
  cbn [filter]. destruct (g x) eqn:G.
  - cbn [filter]. now rewrite IH.
  - rewrite IH. destruct (f x) eqn:F; [|reflexivity].
    apply H in F. congruence.
Qed.

(** X10.  Attribution rows of users that are not marked play no role in the
    merge: filtering the attributions by any user ids that include the
    marked users, as [load_attribution_data] does, leaves the users frame
    unchanged. *)
Theorem merge_ignores_unmarked_users (marks_df : frame)
    (attributions_df : list attribution) (user_ids : list Z) :
  (forall m, In m (frame_rows marks_df) -> In (mark_user_id m) user_ids) ->
  exists filtered,
    _filter_by_user_ids (attribution_rows attributions_df) user_ids
    = attribution_rows filtered
    /\ (forall a, In a filtered <-> In a attributions_df /\ In (attr_user_id a) user_ids)
    /\ _merge_into_users_df marks_df filtered
       = _merge_into_users_df marks_df attributions_df.
Proof.
  intros Hids. eexists. split; [reflexivity|]. split.
  - intros a. rewrite filter_In, isin_In. reflexivity.
  - unfold _merge_into_users_df. do 4 f_equal.
    apply merge_left_ext. intros m Hm. apply filter_filter_implied.
    intros x Hx. apply Z.eqb_eq in Hx. apply isin_In. rewrite Hx. now apply Hids.
Qed.

Lemma merge_ignores_unmarked_users_witness :
  exists filtered,
    _filter_by_user_ids
      (attribution_rows [mkAttribution 11 1 5; mkAttribution 12 2 6]) [1]
    = attribution_rows filtered
    /\ (forall a, In a filtered
                  <-> In a [mkAttribution 11 1 5; mkAttribution 12 2 6]
                      /\ In (attr_user_id a) [1])
    /\ _merge_into_users_df (without_event_type [mkMark 10 1 TEST 7 0]) filtered
       = _merge_into_users_df (without_event_type [mkMark 10 1 TEST 7 0])
           [mkAttribution 11 1 5; mkAttribution 12 2 6].
Proof.
  apply merge_ignores_unmarked_users.
  intros m [<-|[]]. left. reflexivity.
Defined.

(** ** [_uplift]: every outcome and its cause *)

Lemma getitem_Error {A} (l : list A) (i : Z) (e : exn) :
  getitem l i = Error e -> e = IndexError.
Proof.
  unfold getitem.
  destruct ((0 <=? (if i <? 0 then i + Z.of_nat (length l) else i))
            && ((if i <? 0 then i + Z.of_nat (length l) else i) <? Z.of_nat (length l)));
    [destruct (nth_error l _)|]; congruence.
Qed.

Lemma _bootstrap_mean_ci_Raise (rng : N -> nat) (self : Helpers) (sample : list Z)
    (s : state) (e : exn) :
  _bootstrap_mean_ci rng self sample s = Raise e -> e = IndexError.
Proof.
  rewrite _bootstrap_mean_ci_unfold. cbv zeta.
  destruct (getitem _ (lower_index self)) as [lo|e1] eqn:Gl.
  - destruct (getitem _ (upper_index self)) as [up|e2] eqn:Gu; [discriminate|].
    intros [= <-]. eapply getitem_Error, Gu.
  - intros [= <-]. eapply getitem_Error, Gl.
Qed.

Definition has_user (g : group) (users_df : list user) : Prop :=
  exists u, In u users_df /\ users_ab_test_group u = g.

Lemma get_group_has_user (g : group) (users_df : list user) :
  (exists rows, get_group g users_df = Value rows) <-> has_user g users_df.
Proof.
  split.
  - intros (rows & H). apply get_group_Value in H as [Hne ->].
    destruct (filter _ users_df) as [|u t] eqn:E; [congruence|].
    assert (Hu : In u (filter (fun u => group_eqb (users_ab_test_group u) g) users_df))
      by (rewrite E; now left).
    apply filter_In in Hu as [Hin Hg]. exists u. split; [exact Hin|].
    destruct (users_ab_test_group u), g; try reflexivity; discriminate.
  - intros (u & Hin & Hg). unfold get_group.
    destruct (filter _ users_df) as [|x t] eqn:E; [|now eexists].
    exfalso.
    assert (Hu : In u (filter (fun u => group_eqb (users_ab_test_group u) g) users_df)).
    { apply filter_In. split; [exact Hin|]. rewrite Hg. now destruct g. }
    rewrite E in Hu. contradiction.
Qed.

Lemma get_group_Error_iff (g : group) (users_df : list user) :
  (exists e, get_group g users_df = Error e) <-> ~ has_user g users_df.
Proof.
  rewrite <- get_group_has_user. split.
  - intros (e & H) (rows & H'). congruence.
  - intros H. destruct (get_group g users_df) as [rows|e] eqn:E; [|now eexists].
    exfalso. apply H. now eexists.
Qed.

(** The exceptions of [_uplift] and the cause of its [KeyError]. *)
Lemma _uplift_raises (binom_ppf : fval -> Z -> fval -> fval) (rng : N -> nat)
    (self : Helpers) (df : list event) (attrs : list attribution) (name : string)
    (s : state) :
  (_uplift binom_ppf rng self df attrs name s = Raise KeyError
   <-> ~ has_user TEST (users_of df attrs) \/ ~ has_user CONTROL (users_of df attrs))
  /\ (exists e, _uplift binom_ppf rng self df attrs name s = Raise e
                /\ (e = KeyError \/ e = IndexError \/ e = NameError)).
Proof.
  pose proof (_uplift_outcome binom_ppf rng self df attrs name s) as Hout.
  destruct (get_group TEST (users_of df attrs)) as [tu|e1] eqn:Etu.
  2:{ assert (Hno : ~ has_user TEST (users_of df attrs))
        by (apply get_group_Error_iff; eexists; exact Etu).
      split; [split; [intros _; left; exact Hno | intros _; exact Hout]|].
      exists KeyError. split; [exact Hout | now left]. }
  assert (Ht : has_user TEST (users_of df attrs))
    by (apply get_group_has_user; eexists; exact Etu).
  destruct (get_group CONTROL (users_of df attrs)) as [cu|e2] eqn:Ecu.
  2:{ assert (Hno : ~ has_user CONTROL (users_of df attrs))
        by (apply get_group_Error_iff; eexists; exact Ecu).
      split; [split; [intros _; right; exact Hno | intros _; exact Hout]|].
      exists KeyError. split; [exact Hout | now left]. }
  assert (Hc : has_user CONTROL (users_of df attrs))
    by (apply get_group_has_user; eexists; exact Ecu).
  assert (Hkey : ~ (~ has_user TEST (users_of df attrs)
                    \/ ~ has_user CONTROL (users_of df attrs))) by tauto.
  destruct (_bootstrap_mean_ci rng self (map conversion_count cu) s)
    as [[l u] s1|e] eqn:B1.
  2:{ apply _bootstrap_mean_ci_Raise in B1 as ->.
      split; [split; [congruence | tauto]|].
      exists IndexError. split; [exact Hout | right; now left]. }
  destruct (_bootstrap_mean_ci rng self (map revenue_eur cu) s1)
    as [[rl ru] s2|e] eqn:B2.
  2:{ apply _bootstrap_mean_ci_Raise in B2 as ->.
      split; [split; [congruence | tauto]|].
      exists IndexError. split; [exact Hout | right; now left]. }
  split; [split; [congruence | tauto]|].
  exists NameError. split; [exact Hout | right; now right].
Qed.

(** X11.  [_uplift] never returns, neither a report nor [None]: whatever its
    arguments, it raises.  It raises [KeyError] exactly when the users frame
    of the slice has no test user or no control user, and any other
    exception it raises is an [IndexError] of the bootstrap or the
    [NameError] of the output, whose labels read a global that the module
    does not bind. *)
Theorem uplift_outcomes (binom_ppf : fval -> Z -> fval -> fval) (rng : N -> nat)
    (self : Helpers) (df : list event) (attrs : list attribution) (name : string)
    (s : state) :
  (forall res s', _uplift binom_ppf rng self df attrs name s <> Ok res s')
  /\ (exists e, _uplift binom_ppf rng self df attrs name s = Raise e)
  /\ (_uplift binom_ppf rng self df attrs name s = Raise KeyError
      <-> ~ has_user TEST (users_of df attrs) \/ ~ has_user CONTROL (users_of df attrs))
  /\ (forall e, _uplift binom_ppf rng self df attrs name s = Raise e ->
        e = KeyError \/ e = IndexError \/ e = NameError).
Proof.
  destruct (_uplift_raises binom_ppf rng self df attrs name s)
    as (Hkey & e & He & Hcases).
  split; [intros res s'; apply _uplift_never_returns|].
  split; [now exists e|]. split; [exact Hkey|].
  intros e' He'. rewrite He in He'. injection He' as <-. exact Hcases.
Qed.

Lemma uplift_outcomes_witness :
  _uplift binom_ppf_exact example_rng example_helpers
    [mark_event 0 2 CONTROL 1] example_attributions "total" initial_state
  = Raise KeyError.
Proof.
  apply uplift_outcomes. left. intros (u & Hu & Hg).
  vm_compute in Hu. destruct Hu as [<-|[]]. discriminate Hg.
Defined.

Lemma default_level_indices (self : Helpers) :
  confidence_level self = default_confidence_level ->
  1 <= bootstrap_size self ->
  0 <= lower_index self < bootstrap_size self
  /\ 0 <= upper_index self
  /\ (upper_index self < bootstrap_size self <-> 40 <= bootstrap_size self).
Proof.
  intros Hc Hn.
  assert (H0 : (0 < confidence_level self)%Q) by (rewrite Hc; reflexivity).
  assert (H1 : (confidence_level self < 1)%Q) by (rewrite Hc; reflexivity).
  destruct (indices_floor self H0 H1) as [[_ Hl] [_ Hu]]; [lia|].
  pose proof (lower_index_lt self H0 H1 Hn) as Hl'.
  pose proof (upper_index_lt_iff self H0 H1 Hn) as Hiff.
  rewrite (default_level_in_range self Hc) in Hiff.
  split; [lia|]. split; [exact Hu | exact Hiff].
Qed.

(** X12.  At the default confidence level 0.95 and with an effective
    bootstrap size of at least 40, [_uplift] raises [NameError] for every
    slice that has test and control users, whatever the data of the slice:
    both bootstraps return and the output is never built. *)
Theorem uplift_name_error_at_default_level
    (binom_ppf : fval -> Z -> fval -> fval) (rng : N -> nat)
    (self : Helpers) (df : list event) (attrs : list attribution) (name : string)
    (s : state) :
  confidence_level self = default_confidence_level ->
  40 <= bootstrap_size self ->
  has_user TEST (users_of df attrs) ->
  has_user CONTROL (users_of df attrs) ->
  _uplift binom_ppf rng self df attrs name s = Raise NameError.
Proof.
  intros Hc Hn Ht Hcg.
  apply get_group_has_user in Ht as (tu & Etu).
  apply get_group_has_user in Hcg as (cu & Ecu).
  destruct (default_level_indices self Hc) as (Hl & Hu & Hiff); [lia|].
  eapply _uplift_NameError; [exact Etu | exact Ecu | exact Hl|].
  split; [exact Hu | now apply Hiff].
Qed.

Lemma uplift_name_error_at_default_level_witness :
  _uplift binom_ppf_exact example_rng example_helpers example_marks_and_spend
    example_attributions "total" initial_state
  = Raise NameError.
Proof.
  apply uplift_name_error_at_default_level.
  - reflexivity.
  - discriminate.
  - exists (mkUser 1 TEST 1 3000000). split; [left|]; reflexivity.
  - exists (mkUser 2 CONTROL 1 1000000). split; [right; left|]; reflexivity.
Defined.

(** X13.  At the default confidence level 0.95 and with an effective
    bootstrap size from 1 to 39 the upper index is out of range: [_uplift]
    raises [IndexError] for every slice that has test and control users. *)
Theorem uplift_fails_when_size_too_small
    (binom_ppf : fval -> Z -> fval -> fval) (rng : N -> nat)
    (self : Helpers) (df : list event) (attrs : list attribution) (name : string)
    (s : state) :
  confidence_level self = default_confidence_level ->
  1 <= bootstrap_size self < 40 ->
  has_user TEST (users_of df attrs) ->
  has_user CONTROL (users_of df attrs) ->
  _uplift binom_ppf rng self df attrs name s = Raise IndexError.
Proof.
  intros Hc Hn Ht Hcg.
  apply get_group_has_user in Ht as (tu & Etu).
  apply get_group_has_user in Hcg as (cu & Ecu).
  pose proof (_uplift_outcome binom_ppf rng self df attrs name s) as Hcase.
  rewrite Etu, Ecu in Hcase.
  destruct (default_level_indices self Hc) as (Hl & Hu & Hiff); [lia|].
  rewrite _bootstrap_mean_ci_raises in Hcase; [exact Hcase | lia | exact Hu|].
  destruct (Z_lt_le_dec (upper_index self) (bootstrap_size self)) as [Hlt|Hge];
    [|exact Hge].
  apply Hiff in Hlt. lia.
Qed.

Lemma uplift_fails_when_size_too_small_witness :
  _uplift binom_ppf_exact example_rng
    (__init__ [] false default_confidence_level 10)
    example_marks_and_spend example_attributions "total" initial_state
  = Raise IndexError.
Proof.
  apply uplift_fails_when_size_too_small.
  - reflexivity.
  - split; [discriminate | reflexivity].
  - exists (mkUser 1 TEST 1 3000000). split; [left|]; reflexivity.
  - exists (mkUser 2 CONTROL 1 1000000). split; [right; left|]; reflexivity.
Defined.

(** ** [uplift_report] *)



Definition both_groups (slice : list event) (attributions_df : list attribution) : Prop :=
  has_user TEST (users_of slice attributions_df)
  /\ has_user CONTROL (users_of slice attributions_df).

Lemma has_user_decide (g : group) (users_df : list user) :
  has_user g users_df \/ ~ has_user g users_df.
Proof.
  destruct (get_group g users_df) as [rows|e] eqn:E.
  - left. apply get_group_has_user. now exists rows.
  - right. apply get_group_Error_iff. now exists e.
Qed.

Lemma not_both_groups (slice : list event) (attributions_df : list attribution) :
  ~ both_groups slice attributions_df
  <-> ~ has_user TEST (users_of slice attributions_df)
      \/ ~ has_user CONTROL (users_of slice attributions_df).
Proof.
  unfold both_groups.
  destruct (has_user_decide TEST (users_of slice attributions_df));
    destruct (has_user_decide CONTROL (users_of slice attributions_df)); tauto.
Qed.

(** The exception of the total slice is the exception of the call. *)
Lemma uplift_report_total (binom_ppf : fval -> Z -> fval -> fval) (rng : N -> nat)
    (self : Helpers) (df : list event) (attrs : list attribution) (s : state)
    (e : exn) :
  _uplift binom_ppf rng self df attrs "total" s = Raise e ->
  uplift_report binom_ppf rng self df attrs s = Raise e.
Proof.
  intros H. unfold uplift_report. unfold bind at 1. rewrite H. reflexivity.
Qed.

(** X14.  [uplift_report] never returns: the computation of the total slice
    raises, and the exception of the total slice is the exception of the
    call.  It is a [KeyError] exactly when the whole data set has no test
    user or no control user; no configured group and no campaign is ever
    looked at. *)
Theorem uplift_report_never_returns (binom_ppf : fval -> Z -> fval -> fval)
    (rng : N -> nat) (self : Helpers) (df : list event) (attrs : list attribution)
    (s : state) :
  (forall res s', uplift_report binom_ppf rng self df attrs s <> Ok res s')
  /\ exists e,
       _uplift binom_ppf rng self df attrs "total" s = Raise e
       /\ uplift_report binom_ppf rng self df attrs s = Raise e
       /\ (e = KeyError <-> ~ both_groups df attrs)
       /\ (e = KeyError \/ e = IndexError \/ e = NameError).
Proof.
  destruct (_uplift_raises binom_ppf rng self df attrs "total" s)
    as (Hkey & e & He & Hcases).
  pose proof (uplift_report_total _ _ _ _ _ _ He) as Hr.
  split; [intros res s' H; congruence|].
  exists e. split; [exact He|]. split; [exact Hr|]. split; [|exact Hcases].
  rewrite not_both_groups, <- Hkey, He. split; [congruence|].
  intros H. now injection H.
Qed.

Lemma uplift_report_never_returns_witness :
  uplift_report binom_ppf_exact example_rng example_helpers
    example_marks_and_spend example_attributions initial_state
  = Raise NameError.
Proof.
  destruct (uplift_report_never_returns binom_ppf_exact example_rng example_helpers
              example_marks_and_spend example_attributions initial_state)
    as (_ & e & He & Hr & _).
  rewrite Hr. f_equal.
  assert (E : Raise (A := option report) e = Raise NameError)
    by (rewrite <- He; vm_compute; reflexivity).
  now injection E.
Defined.



(** ** [_old_uplift]: the guard against empty groups *)

Lemma group_eqb_eq (g h : group) : group_eqb g h = true <-> g = h.
Proof. destruct g, h; cbn [group_eqb]; split; congruence. Qed.

Lemma nunique_users_positive (g : group) (marks_df : list mark) :
  (nunique_users g marks_df =? 0) = false
  <-> exists m, In m marks_df /\ mark_ab_test_group m = g.
Proof.
  unfold nunique_users.
  destruct (filter (fun m => group_eqb (mark_ab_test_group m) g) marks_df)
    as [|x t] eqn:E.
  - cbn. split; [discriminate|]. intros (m & Hm & Hg). exfalso.
    assert (Hin : In m (filter (fun m => group_eqb (mark_ab_test_group m) g) marks_df)).
    { apply filter_In. split; [exact Hm|]. now apply group_eqb_eq. }
    rewrite E in Hin. contradiction.
  - split.
    + intros _. exists x.
      assert (Hin : In x (filter (fun m => group_eqb (mark_ab_test_group m) g) marks_df))
        by (rewrite E; now left).
      apply filter_In in Hin as [Hin Hg]. split; [exact Hin|]. now apply group_eqb_eq.
    + intros _. apply Z.eqb_neq.
      assert (Hin : In (mark_user_id x) (nodup Z.eq_dec (map mark_user_id (x :: t)))).
      { apply nodup_In. now left. }
      destruct (nodup Z.eq_dec (map mark_user_id (x :: t))); [contradiction|].
      cbn [length]. lia.
Qed.

Lemma first_mark_per_user_NoDup (mark_df : list mark) :
  NoDup (map mark_user_id (first_mark_per_user mark_df)).
Proof. apply drop_duplicates_from_NoDup. Qed.

(** A group has a row in the users frame of a slice exactly when one of the
    marks that [_marked] keeps carries it. *)
Lemma users_of_group (df : list event) (attrs : list attribution) (g : group) :
  has_user g (users_of df attrs)
  <-> exists m, In m (first_mark_per_user (marks_of df)) /\ mark_ab_test_group m = g.
Proof.
  unfold has_user, users_of. split.
  - intros (u & Hu & Hg). apply users_row in Hu as (m & ms & Hf & Hgm & _).
    cbn [frame_rows] in Hf. exists m. split; [|congruence].
    assert (Hin : In m (filter (fun m0 => mark_user_id m0 =? users_user_id u)
                          (first_mark_per_user (marks_of df))))
      by (rewrite Hf; now left).
    now apply filter_In in Hin.
  - intros (m & Hm & Hg).
    destruct (@users_row_of_mark
                (without_event_type (first_mark_per_user (marks_of df))) attrs m)
      as (row & Hrow & _ & Hgr & _).
    { cbn [frame_rows].
      apply filter_unique_mark; [apply first_mark_per_user_NoDup | exact Hm]. }
    exists row. split; [exact Hrow | congruence].
Qed.

Lemma _old_uplift_guard_cases (df : list event) (name : string) (s : state) :
  _old_uplift_guard df name s
  = if nunique_users TEST (first_mark_per_user (marks_of df)) =? 0
    then Ok None
           (mkState (rng_pos s)
              (stdout s ++ ["WARNING: No users marked as test for " ++ " " ++ name
                            ++ " " ++ "skipping.. "]%string))
    else if nunique_users CONTROL (first_mark_per_user (marks_of df)) =? 0
    then Ok None
           (mkState (rng_pos s)
              (stdout s ++ ["WARNING: No users marked as control for " ++ " " ++ name
                            ++ " " ++ "skipping.. "]%string))
    else Ok (Some tt) s.
Proof.
  unfold _old_uplift_guard.
  destruct (_marked_events df) as (out & Hout & Hrows).
  unfold bind at 1. rewrite Hout. unfold lift at 1, ret at 1. cbv zeta.
  rewrite Hrows.
  destruct (nunique_users TEST (first_mark_per_user (marks_of df)) =? 0);
    [reflexivity|].
  destruct (nunique_users CONTROL (first_mark_per_user (marks_of df)) =? 0);
    reflexivity.
Qed.

(** X16.  The guard of [_old_uplift] and the group lookups of [_uplift]
    decide alike, and answer differently: on a slice whose users frame has a
    test user and a control user the guard lets the computation go on,
    printing nothing; on every other slice the guard prints one warning and
    returns [None], and these are exactly the slices on which [_uplift]
    raises [KeyError].  The guard itself never raises. *)
Theorem old_guard_skips_where_uplift_raises
    (binom_ppf : fval -> Z -> fval -> fval) (rng : N -> nat)
    (self : Helpers) (df : list event) (attrs : list attribution) (name : string)
    (s : state) :
  (_old_uplift_guard df name s = Ok (Some tt) s <-> both_groups df attrs)
  /\ ((exists msg, _old_uplift_guard df name s
                   = Ok None (mkState (rng_pos s) (stdout s ++ [msg])))
      <-> _uplift binom_ppf rng self df attrs name s = Raise KeyError)
  /\ (forall e, _old_uplift_guard df name s <> Raise e).
Proof.
  pose proof (proj1 (_uplift_raises binom_ppf rng self df attrs name s)) as Hkey.
  assert (Ht : (nunique_users TEST (first_mark_per_user (marks_of df)) =? 0) = false
               <-> has_user TEST (users_of df attrs))
    by (rewrite nunique_users_positive, users_of_group; reflexivity).
  assert (Hc : (nunique_users CONTROL (first_mark_per_user (marks_of df)) =? 0) = false
               <-> has_user CONTROL (users_of df attrs))
    by (rewrite nunique_users_positive, users_of_group; reflexivity).
  rewrite _old_uplift_guard_cases, Hkey. unfold both_groups.
  destruct (nunique_users TEST (first_mark_per_user (marks_of df)) =? 0).
  - assert (Hno : ~ has_user TEST (users_of df attrs))
      by (intros H; apply Ht in H; discriminate H).
    split; [split; [discriminate | tauto]|].
    split; [|discriminate].
    split; [tauto|]. intros _. eexists. reflexivity.
  - assert (Hyes : has_user TEST (users_of df attrs)) by now apply Ht.
    destruct (nunique_users CONTROL (first_mark_per_user (marks_of df)) =? 0).
    + assert (Hno : ~ has_user CONTROL (users_of df attrs))
        by (intros H; apply Hc in H; discriminate H).
      split; [split; [discriminate | tauto]|].
      split; [|discriminate].
      split; [tauto|]. intros _. eexists. reflexivity.
    + assert (Hyes' : has_user CONTROL (users_of df attrs)) by now apply Hc.
      split; [tauto|]. split; [|discriminate].
      split; [intros (msg & H); discriminate H | tauto].
Qed.

Lemma old_guard_skips_where_uplift_raises_witness :
  _old_uplift_guard example_marks_and_spend "total" initial_state
  = Ok (Some tt) initial_state
  /\ exists msg,
       _old_uplift_guard [mark_event 0 2 CONTROL 1] "total" initial_state
       = Ok None (mkState (rng_pos initial_state) (stdout initial_state ++ [msg])).
Proof.
  split.
  - apply (proj1 (@old_guard_skips_where_uplift_raises binom_ppf_exact example_rng
                    example_helpers example_marks_and_spend example_attributions
                    "total"%string initial_state)).
    split.
    + exists (mkUser 1 TEST 1 3000000). split; [left|]; reflexivity.
    + exists (mkUser 2 CONTROL 1 1000000). split; [right; left|]; reflexivity.
  - apply (proj1 (proj2 (@old_guard_skips_where_uplift_raises binom_ppf_exact
                           example_rng example_helpers [mark_event 0 2 CONTROL 1]
                           example_attributions "total"%string initial_state))).
    vm_compute. reflexivity.
Defined.
